(** * Event-management backend: the RSVP / event-ownership model

    A shallow embedding of [event-management-system/backend/app.py]: the four
    tables, the JSON request bodies with Python's truthiness, and the route
    handlers as functions from the committed store to a response and a new
    store.  Each handler commits once, as its last step, so a request that
    returns early or raises leaves the store as it found it. *)

From Stdlib Require Import ZArith String Ascii List Lia Sorted Permutation PrimFloat.
From stdpp Require Import base option list gmap strings pretty.

Open Scope Z_scope.
Open Scope string_scope.

(** ** JSON values, as [request.get_json()] returns them *)

#[warnings="-register-all"]
Inductive json :=
| JNull
| JBool (b : bool)
| JInt (z : Z)
| JFloat (f : float)
| JStr (s : string)
| JArr (l : list json)
| JObj (m : gmap string json).

(** Python's truth value of a parsed JSON value ([not v] is its negation). *)
Definition truthy (v : json) : bool :=
  match v with
  | JNull => false
  | JBool b => b
  | JInt z => negb (bool_decide (z = 0))
  | JFloat f => negb (PrimFloat.eqb f 0%float)
  | JStr s => negb (bool_decide (s = ""))
  | JArr l => negb (bool_decide (length l = 0%nat))
  | JObj m => negb (bool_decide (size m = 0%nat))
  end.

Definition is_none (v : json) : bool :=
  match v with JNull => true | _ => false end.

(** [s.replace(old, new)] for a one-character [old]: every occurrence. *)
Fixpoint py_replace (old : ascii) (new : string) (s : string) : string :=
  match s with
  | EmptyString => EmptyString
  | String c s' =>
      if Ascii.eqb c old then new ++ py_replace old new s'
      else String c (py_replace old new s')
  end.

(** ** Responses *)

(** A handler answers with [jsonify(body), status], or the framework answers
    for it: [abort(404)] of [get_or_404], and 500 for an exception that no
    handler catches. *)
Inductive response :=
| Json (body : json) (status : Z)
| Abort (status : Z).

Definition status_of (r : response) : Z :=
  match r with Json _ s => s | Abort s => s end.

Definition dict (items : list (string * json)) : json :=
  JObj (list_to_map items).
Arguments dict : simpl never.

Definition error (msg : string) (status : Z) : response :=
  Json (dict [("error", JStr msg)]) status.

Definition message (msg : string) (status : Z) : response :=
  Json (dict [("message", JStr msg)]) status.

(** ** The error monad of a handler body *)

Inductive res (A : Type) :=
| Ret (a : A)
| Stop (r : response).
Arguments Ret {A} a.
Arguments Stop {A} r.

#[global] Instance res_ret : MRet res := @Ret.
#[global] Instance res_bind : MBind res := fun A B f m =>
  match m with Ret a => f a | Stop r => Stop r end.

(** An unhandled Python exception (AttributeError, KeyError, TypeError, a
    driver or integrity error at commit). *)
Definition raise {A} : res A := Stop (Abort 500).

Definition raised {A} (o : option A) : res A :=
  match o with Some a => Ret a | None => raise end.

Definition get_or_404 {A} (o : option A) : res A :=
  match o with Some a => Ret a | None => Stop (Abort 404) end.

(** [data.get(k)], [data.get(k, default)] and [data[k]]: only a dict has
    them; a key bound to null is present. *)
Definition py_get_default (data : json) (k : string) (dflt : json) : res json :=
  match data with
  | JObj m => Ret (default dflt (m !! k))
  | _ => raise
  end.

Definition py_get (data : json) (k : string) : res json :=
  py_get_default data k JNull.

Definition py_item (data : json) (k : string) : res json :=
  match data with
  | JObj m => raised (m !! k)
  | _ => raise
  end.

(** [not data.get(k1) or not data.get(k2) or ...], left to right. *)
Fixpoint any_falsy (data : json) (keys : list string) : res bool :=
  match keys with
  | [] => Ret false
  | k :: ks =>
      v ← py_get data k;
      if truthy v then any_falsy data ks else Ret true
  end.

(** [not data or not data.get(k1) or ...] *)
Definition not_data_or (data : json) (keys : list string) : res bool :=
  if truthy data then any_falsy data keys else Ret true.

(** ** Tables *)

(** A [DateTime] column: an instant on the time line, as an integer. *)
Definition datetime := Z.

Module User.
Record t := mk {
  id : Z;
  name : string;
  email : string;
  password : string;
  role : string;
  profile_photo : option string;
  created_at : datetime
}.
End User.

Module Event.
Record t := mk {
  id : Z;
  title : string;
  description : string;
  date : datetime;
  location : string;
  price : option float;
  banner : option string;
  organizer_id : Z;
  created_at : datetime
}.
End Event.

Module RSVP.
Record t := mk {
  id : Z;
  user_id : Z;
  event_id : Z;
  payment_status : string;
  created_at : datetime
}.
End RSVP.

Module Comment.
Record t := mk {
  id : Z;
  user_id : Z;
  event_id : Z;
  content : string;
  timestamp : datetime
}.
End Comment.

(** The committed store: the rows of each table in insertion order, and the
    next value of each primary-key sequence. *)
Record DB := mkDB {
  users : list User.t;
  events : list Event.t;
  rsvps : list RSVP.t;
  comments : list Comment.t;
  user_seq : Z;
  event_seq : Z;
  rsvp_seq : Z;
  comment_seq : Z
}.

Definition empty_db : DB := mkDB [] [] [] [] 1 1 1 1.

(** What a request brings besides its body: the clock behind
    [datetime.utcnow] and the randomness behind salts and token ids. *)
Record Ctx := mkCtx {
  utcnow : datetime;
  entropy : string
}.

(** ** The libraries around the handlers

    The functions of bcrypt, the JWT extension, [datetime] and the database
    driver that the handlers call.  [None] stands for a raised exception
    ([ValueError] for [fromisoformat]).  The driver binds a JSON value to a
    column type; all that is assumed of it is that a string is bound as it
    is, an integer too, and that zero is bound to a float column as 0.0.
    [varchar n s] says whether the engine takes the string [s] into a
    [String(n)] column as it is; when it does not, the commit raises.
    SQLite takes every string; PostgreSQL, the engine of the default
    [DATABASE_URL], refuses a string that is longer than [n] by more than
    spaces (spaces beyond the length it cuts, which no engine of this class
    does).  All that is assumed is that a string of at most [n] characters
    is taken. *)
Class Platform := {
  generate_password_hash : Ctx → json → option string;
  check_password_hash : string → json → option bool;
  create_access_token : Ctx → Z → string;
  fromisoformat : string → option datetime;
  isoformat : datetime → string;
  bind_text : json → option string;
  bind_int : json → option Z;
  bind_float : json → option float;
  varchar : nat → string → bool;
  bind_text_str : ∀ s, bind_text (JStr s) = Some s;
  bind_int_int : ∀ z, bind_int (JInt z) = Some z;
  bind_float_default : bind_float (JFloat 0) = Some 0%float;
  bind_float_zero : bind_float (JInt 0) = Some 0%float;
  varchar_fits : ∀ n s, (String.length s <= n)%nat → varchar n s = true
}.

(** A handler: from the committed store to the response and the store
    after the request. *)
Definition handler := DB → response * DB.

Definition run (body : DB → res (response * DB)) : handler := fun db =>
  match body db with
  | Ret out => out
  | Stop r => (r, db)
  end.

(** ** Queries *)

(** [User.query.filter_by(email=e).first()] *)
Definition user_by_email (e : string) (db : DB) : option User.t :=
  find (fun u => bool_decide (User.email u = e)) (users db).

(** [User.query.get(id)] *)
Definition get_user (i : Z) (db : DB) : option User.t :=
  find (fun u => bool_decide (User.id u = i)) (users db).

(** [Event.query.get(id)] *)
Definition get_event_row (i : Z) (db : DB) : option Event.t :=
  find (fun e => bool_decide (Event.id e = i)) (events db).

(** [Comment.query.get(id)] *)
Definition get_comment_row (i : Z) (db : DB) : option Comment.t :=
  find (fun c => bool_decide (Comment.id c = i)) (comments db).

(** [RSVP.query.filter_by(user_id=u, event_id=e).first()] *)
Definition rsvp_of (u e : Z) (db : DB) : option RSVP.t :=
  find (fun r => bool_decide (RSVP.user_id r = u) && bool_decide (RSVP.event_id r = e))
       (rsvps db).

(** [event.rsvps] and [event.comments], the relationships of lines 56-57. *)
Definition event_rsvps (e : Z) (db : DB) : list RSVP.t :=
  filter (fun r => RSVP.event_id r = e) (rsvps db).

Definition event_comments (e : Z) (db : DB) : list Comment.t :=
  filter (fun c => Comment.event_id c = e) (comments db).

(** [ORDER BY]: a stable insertion sort under a total preorder [le]. *)
Fixpoint insert_by {A} (le : A → A → bool) (x : A) (l : list A) : list A :=
  match l with
  | [] => [x]
  | y :: l' => if le x y then x :: y :: l' else y :: insert_by le x l'
  end.

Definition order_by {A} (le : A → A → bool) (l : list A) : list A :=
  foldr (insert_by le) [] l.

(** [Event.date.asc()] and [Comment.timestamp.desc()] *)
Definition date_asc (a b : Event.t) : bool := (Event.date a <=? Event.date b)%Z.
Definition timestamp_desc (a b : Comment.t) : bool :=
  (Comment.timestamp b <=? Comment.timestamp a)%Z.

(** [event.price == 0]: a NULL price is [None], which equals no number. *)
Definition price_is_zero (p : option float) : bool :=
  match p with
  | Some f => PrimFloat.eqb f 0%float
  | None => false
  end.

(** ** Writes *)

(** The value the ORM sends for a column with a default: an attribute left
    at [None] is omitted from the INSERT, and the column's default applies. *)
Definition with_default {A} (bind : json → option A) (dflt : A) (v : json) : res A :=
  match v with
  | JNull => Ret dflt
  | _ => raised (bind v)
  end.

(** The value sent for a nullable column that has no default. *)
Definition nullable {A} (bind : json → option A) (v : json) : res (option A) :=
  match v with
  | JNull => Ret None
  | _ => a ← raised (bind v); Ret (Some a)
  end.

(** INSERT of a user; [email] is declared [unique=True] (line 33). *)
Definition insert_user (mk : Z → User.t) (db : DB) : res (User.t * DB) :=
  let u := mk (user_seq db) in
  match user_by_email (User.email u) db with
  | Some _ => raise
  | None =>
      Ret (u, mkDB (users db ++ [u]) (events db) (rsvps db) (comments db)
                   (user_seq db + 1) (event_seq db) (rsvp_seq db) (comment_seq db))
  end.

Definition insert_event (mk : Z → Event.t) (db : DB) : Event.t * DB :=
  let e := mk (event_seq db) in
  (e, mkDB (users db) (events db ++ [e]) (rsvps db) (comments db)
           (user_seq db) (event_seq db + 1) (rsvp_seq db) (comment_seq db)).

(** INSERT of an RSVP and of a comment.  The store holds no foreign keys:
    a row is inserted whatever its [user_id] and [event_id] name, as on an
    engine that does not enforce them (SQLite, as it is opened by default);
    PostgreSQL raises at commit for an id that no row has. *)
Definition insert_rsvp (mk : Z → RSVP.t) (db : DB) : RSVP.t * DB :=
  let r := mk (rsvp_seq db) in
  (r, mkDB (users db) (events db) (rsvps db ++ [r]) (comments db)
           (user_seq db) (event_seq db) (rsvp_seq db + 1) (comment_seq db)).

Definition insert_comment (mk : Z → Comment.t) (db : DB) : Comment.t * DB :=
  let c := mk (comment_seq db) in
  (c, mkDB (users db) (events db) (rsvps db) (comments db ++ [c])
           (user_seq db) (event_seq db) (rsvp_seq db) (comment_seq db + 1)).

(** UPDATE of the event row with the primary key of [e']. *)
Definition save_event (e' : Event.t) (db : DB) : DB :=
  mkDB (users db)
       (map (fun e => if bool_decide (Event.id e = Event.id e') then e' else e) (events db))
       (rsvps db) (comments db)
       (user_seq db) (event_seq db) (rsvp_seq db) (comment_seq db).

(** [db.session.delete(event); db.session.commit()].  The relationships
    [rsvps] and [comments] of [Event] (lines 56-57) name no cascade, so the
    unit of work detaches the children of a deleted event by setting their
    [event_id] to NULL before it deletes the parent.  Both columns are
    [nullable=False] (lines 62 and 69): with a child present the flush breaks
    NOT NULL, the commit raises, and nothing is deleted. *)
Definition session_delete_event (event : Event.t) (db : DB) : res DB :=
  match event_rsvps (Event.id event) db, event_comments (Event.id event) db with
  | [], [] =>
      Ret (mkDB (users db)
                (filter (fun e => Event.id e ≠ Event.id event) (events db))
                (rsvps db) (comments db)
                (user_seq db) (event_seq db) (rsvp_seq db) (comment_seq db))
  | _, _ => raise
  end.

(** [db.session.delete(rsvp); db.session.commit()] *)
Definition session_delete_rsvp (rsvp : RSVP.t) (db : DB) : DB :=
  mkDB (users db) (events db)
       (filter (fun r => RSVP.id r ≠ RSVP.id rsvp) (rsvps db))
       (comments db)
       (user_seq db) (event_seq db) (rsvp_seq db) (comment_seq db).

(** [db.session.delete(comment); db.session.commit()] *)
Definition session_delete_comment (comment : Comment.t) (db : DB) : DB :=
  mkDB (users db) (events db) (rsvps db)
       (filter (fun c => Comment.id c ≠ Comment.id comment) (comments db))
       (user_seq db) (event_seq db) (rsvp_seq db) (comment_seq db).

(** ** The route handlers *)

Section Handlers.
Context {P : Platform}.

(** The value a [String(n)] column keeps of a string, and of a value of
    the request body: what the driver binds, if the engine takes it. *)
Definition stored (n : nat) (s : string) : option string :=
  if varchar n s then Some s else None.

Definition column (n : nat) (v : json) : option string :=
  bind_text v ≫= stored n.

Definition user_json (u : User.t) : json :=
  dict [("id", JInt (User.id u)); ("name", JStr (User.name u));
        ("email", JStr (User.email u)); ("role", JStr (User.role u))].

(** POST /api/register.  The INSERT sends name, email, password and role
    to columns of 100, 120, 255 and 20 characters (lines 32-35). *)
Definition register (ctx : Ctx) (data : json) : handler := run (fun db =>
  missing ← not_data_or data ["email"; "password"; "name"];
  if missing : bool then Stop (error "Missing required fields" 400) else
  email_v ← py_item data "email";
  email ← raised (bind_text email_v);
  match user_by_email email db with
  | Some _ => Stop (error "Email already registered" 400)
  | None =>
      password_v ← py_item data "password";
      hashed_password ← raised (generate_password_hash ctx password_v);
      name_v ← py_item data "name";
      role_v ← py_get_default data "role" (JStr "student");
      (* the INSERT: each string as its column keeps it *)
      name ← raised (column 100 name_v);
      email ← raised (stored 120 email);
      hashed_password ← raised (stored 255 hashed_password);
      role ← with_default (column 20) "student" role_v;
      '(user, db') ← insert_user
        (fun i => User.mk i name email hashed_password role None (utcnow ctx)) db;
      let access_token := create_access_token ctx (User.id user) in
      Ret (Json (dict [("message", JStr "User registered successfully");
                       ("access_token", JStr access_token);
                       ("user", user_json user)]) 201, db')
  end).

(** POST /api/login *)
Definition login (ctx : Ctx) (data : json) : handler := run (fun db =>
  missing ← not_data_or data ["email"; "password"];
  if missing : bool then Stop (error "Missing email or password" 400) else
  email_v ← py_item data "email";
  email ← raised (bind_text email_v);
  password_v ← py_item data "password";
  match user_by_email email db with
  | None => Stop (error "Invalid email or password" 401)
  | Some user =>
      ok ← raised (check_password_hash (User.password user) password_v);
      if ok : bool then
        let access_token := create_access_token ctx (User.id user) in
        Ret (Json (dict [("message", JStr "Login successful");
                         ("access_token", JStr access_token);
                         ("user", user_json user)]) 200, db)
      else Stop (error "Invalid email or password" 401)
  end).

Definition price_json (p : option float) : json :=
  match p with Some f => JFloat f | None => JNull end.

Definition text_json (s : option string) : json :=
  match s with Some s => JStr s | None => JNull end.

Definition organizer_name (e : Event.t) (db : DB) : string :=
  match get_user (Event.organizer_id e) db with
  | Some organizer => User.name organizer
  | None => "Unknown"
  end.

(** One entry of [events_data]. *)
Definition event_json (db : DB) (e : Event.t) : json :=
  dict [("id", JInt (Event.id e)); ("title", JStr (Event.title e));
        ("description", JStr (Event.description e));
        ("date", JStr (isoformat (Event.date e)));
        ("location", JStr (Event.location e));
        ("price", price_json (Event.price e));
        ("banner", text_json (Event.banner e));
        ("organizer_name", JStr (organizer_name e db));
        ("rsvp_count", JInt (Z.of_nat (length (event_rsvps (Event.id e) db))))].

(** GET /api/events *)
Definition get_events : handler := fun db =>
  let events := order_by date_asc (events db) in
  (Json (JArr (map (event_json db) events)) 200, db).

(** The date of a request body: [data['date'].replace('Z', '+00:00')] needs
    a string, and [fromisoformat] raises [ValueError] on what it cannot
    read, which both handlers answer with 400. *)
Definition parse_date (date_v : json) : res datetime :=
  match date_v with
  | JStr s =>
      match fromisoformat (py_replace "Z" "+00:00" s) with
      | Some d => Ret d
      | None => Stop (error "Invalid date format" 400)
      end
  | _ => raise
  end.

(** The date a body's value stands for, when it stands for one. *)
Definition date_of (date_v : json) : option datetime :=
  match date_v with
  | JStr s => fromisoformat (py_replace "Z" "+00:00" s)
  | _ => None
  end.

(** POST /api/events.  Title, location and banner go to columns of 200,
    200 and 255 characters, the description to a [Text] column (lines
    46-51). *)
Definition create_event (ctx : Ctx) (user_id : Z) (data : json) : handler := run (fun db =>
  user ← raised (get_user user_id db);
  if negb (bool_decide (User.role user = "organizer"))
  then Stop (error "Only organizers can create events" 403) else
  missing ← not_data_or data ["title"; "description"; "date"; "location"];
  if missing : bool then Stop (error "Missing required fields" 400) else
  date_v ← py_item data "date";
  event_date ← parse_date date_v;
  title_v ← py_item data "title";
  description_v ← py_item data "description";
  location_v ← py_item data "location";
  price_v ← py_get_default data "price" (JFloat 0);
  banner_v ← py_get data "banner";
  title ← raised (column 200 title_v);
  description ← raised (bind_text description_v);
  location ← raised (column 200 location_v);
  price ← with_default bind_float 0%float price_v;
  banner ← nullable (column 255) banner_v;
  let '(event, db') := insert_event
    (fun i => Event.mk i title description event_date location (Some price) banner
                       user_id (utcnow ctx)) db in
  Ret (Json (dict [("message", JStr "Event created successfully");
                   ("event", dict [("id", JInt (Event.id event));
                                   ("title", JStr (Event.title event));
                                   ("description", JStr (Event.description event));
                                   ("date", JStr (isoformat (Event.date event)));
                                   ("location", JStr (Event.location event));
                                   ("price", price_json (Event.price event));
                                   ("banner", text_json (Event.banner event))])]) 201,
       db')).

(** [if data.get(k): event.k = data[k]]: the value to assign, if any. *)
Definition supplied (data : json) (k : string) : res (option json) :=
  v ← py_get data k;
  if truthy v then v' ← py_item data k; Ret (Some v') else Ret None.

(** [if data.get(k) is not None: event.k = data[k]] *)
Definition supplied_not_none (data : json) (k : string) : res (option json) :=
  v ← py_get data k;
  if negb (is_none v) then v' ← py_item data k; Ret (Some v') else Ret None.

(** The column value of an attribute at commit: the assigned value as the
    column keeps it, or the row's value when nothing was assigned. *)
Definition assigned {A} (bind : json → option A) (old : A) (v : option json) : res A :=
  match v with
  | Some j => raised (bind j)
  | None => Ret old
  end.

(** PUT /api/events/<event_id> *)
Definition update_event (user_id event_id : Z) (data : json) : handler := run (fun db =>
  event ← get_or_404 (get_event_row event_id db);
  if negb (bool_decide (Event.organizer_id event = user_id))
  then Stop (error "Only the organizer can update this event" 403) else
  title_v ← supplied data "title";
  description_v ← supplied data "description";
  date_v ← supplied data "date";
  date ← match date_v with
         | Some v => parse_date v
         | None => Ret (Event.date event)
         end;
  location_v ← supplied data "location";
  price_v ← supplied_not_none data "price";
  banner_v ← supplied data "banner";
  title ← assigned (column 200) (Event.title event) title_v;
  description ← assigned bind_text (Event.description event) description_v;
  location ← assigned (column 200) (Event.location event) location_v;
  price ← assigned (fun j => Some <$> bind_float j) (Event.price event) price_v;
  banner ← assigned (fun j => Some <$> column 255 j) (Event.banner event) banner_v;
  let event' := Event.mk (Event.id event) title description date location price banner
                         (Event.organizer_id event) (Event.created_at event) in
  Ret (message "Event updated successfully" 200, save_event event' db)).

(** DELETE /api/events/<event_id> *)
Definition delete_event (user_id event_id : Z) : handler := run (fun db =>
  event ← get_or_404 (get_event_row event_id db);
  if negb (bool_decide (Event.organizer_id event = user_id))
  then Stop (error "Only the organizer can delete this event" 403) else
  db' ← session_delete_event event db;
  Ret (message "Event deleted successfully" 200, db')).

(** POST /api/rsvp *)
Definition create_rsvp (ctx : Ctx) (user_id : Z) (data : json) : handler := run (fun db =>
  missing ← not_data_or data ["event_id"];
  if missing : bool then Stop (error "Event ID is required" 400) else
  event_id_v ← py_item data "event_id";
  event_id ← raised (bind_int event_id_v);
  event ← get_or_404 (get_event_row event_id db);
  match rsvp_of user_id event_id db with
  | Some existing_rsvp => Stop (error "Already RSVP'd to this event" 400)
  | None =>
      let '(rsvp, db') := insert_rsvp
        (fun i => RSVP.mk i user_id event_id
                          (if price_is_zero (Event.price event) then "free" else "pending")
                          (utcnow ctx)) db in
      Ret (message "RSVP created successfully" 201, db')
  end).

(** DELETE /api/rsvp/<event_id> *)
Definition cancel_rsvp (user_id event_id : Z) : handler := run (fun db =>
  match rsvp_of user_id event_id db with
  | None => Stop (error "RSVP not found" 404)
  | Some rsvp =>
      Ret (message "RSVP cancelled successfully" 200, session_delete_rsvp rsvp db)
  end).

(** GET /api/rsvp/<event_id> *)
Definition get_rsvp_status (user_id event_id : Z) : handler := fun db =>
  match rsvp_of user_id event_id db with
  | None => (Json (dict [("rsvp_status", JStr "not_rsvpd")]) 200, db)
  | Some rsvp =>
      (Json (dict [("rsvp_status", JStr "rsvpd");
                   ("payment_status", JStr (RSVP.payment_status rsvp))]) 200, db)
  end.

Definition user_name (i : Z) (db : DB) : string :=
  match get_user i db with
  | Some user => User.name user
  | None => "Unknown"
  end.

(** One entry of [comments_data]. *)
Definition comment_json (db : DB) (c : Comment.t) : json :=
  dict [("id", JInt (Comment.id c)); ("content", JStr (Comment.content c));
        ("timestamp", JStr (isoformat (Comment.timestamp c)));
        ("user_name", JStr (user_name (Comment.user_id c) db));
        ("user_id", JInt (Comment.user_id c))].

(** GET /api/events/<event_id>/comments *)
Definition get_comments (event_id : Z) : handler := fun db =>
  let comments := order_by timestamp_desc (event_comments event_id db) in
  (Json (JArr (map (comment_json db) comments)) 200, db).

(** POST /api/events/<event_id>/comments *)
Definition create_comment (ctx : Ctx) (user_id event_id : Z) (data : json) : handler :=
  run (fun db =>
  missing ← not_data_or data ["content"];
  if missing : bool then Stop (error "Comment content is required" 400) else
  content_v ← py_item data "content";
  content ← raised (bind_text content_v);
  let '(comment, db') := insert_comment
    (fun i => Comment.mk i user_id event_id content (utcnow ctx)) db in
  Ret (Json (dict [("message", JStr "Comment added successfully");
                   ("comment", comment_json db' comment)]) 201, db')).

(** DELETE /api/comments/<comment_id> *)
Definition delete_comment (user_id comment_id : Z) : handler := run (fun db =>
  comment ← get_or_404 (get_comment_row comment_id db);
  if negb (bool_decide (Comment.user_id comment = user_id))
  then Stop (error "Only the comment author can delete this comment" 403) else
  Ret (message "Comment deleted successfully" 200, session_delete_comment comment db)).

(** One entry of [events_data] of the organizer's own listing. *)
Definition own_event_json (db : DB) (e : Event.t) : json :=
  dict [("id", JInt (Event.id e)); ("title", JStr (Event.title e));
        ("description", JStr (Event.description e));
        ("date", JStr (isoformat (Event.date e)));
        ("location", JStr (Event.location e));
        ("price", price_json (Event.price e));
        ("banner", text_json (Event.banner e));
        ("rsvp_count", JInt (Z.of_nat (length (event_rsvps (Event.id e) db))))].

(** GET /api/organizer/events *)
Definition get_organizer_events (user_id : Z) : handler := run (fun db =>
  user ← raised (get_user user_id db);
  if negb (bool_decide (User.role user = "organizer"))
  then Stop (error "Only organizers can access this endpoint" 403) else
  let events := order_by date_asc
                  (filter (fun e => Event.organizer_id e = user_id) (events db)) in
  Ret (Json (JArr (map (own_event_json db) events)) 200, db)).

(** GET /api/profile *)
Definition get_profile (user_id : Z) : handler := run (fun db =>
  match get_user user_id db with
  | None => Stop (error "User not found" 404)
  | Some user =>
      Ret (Json (dict [("id", JInt (User.id user)); ("name", JStr (User.name user));
                       ("email", JStr (User.email user));
                       ("role", JStr (User.role user));
                       ("profile_photo", text_json (User.profile_photo user))]) 200,
           db)
  end).

(** GET /api/events/<event_id> *)
Definition get_event (event_id : Z) : handler := run (fun db =>
  event ← get_or_404 (get_event_row event_id db);
  Ret (Json (event_json db event) 200, db)).

(** One entry of [rsvps_data]. *)
Definition rsvp_json (db : DB) (r : RSVP.t) : json :=
  let user := get_user (RSVP.user_id r) db in
  dict [("id", JInt (RSVP.id r));
        ("user_name", JStr (match user with Some u => User.name u | None => "Unknown" end));
        ("user_email", JStr (match user with Some u => User.email u | None => "Unknown" end));
        ("payment_status", JStr (RSVP.payment_status r));
        ("created_at", JStr (isoformat (RSVP.created_at r)))].

(** GET /api/organizer/events/<event_id>/rsvps *)
Definition get_event_rsvps (user_id event_id : Z) : handler := run (fun db =>
  event ← get_or_404 (get_event_row event_id db);
  if negb (bool_decide (Event.organizer_id event = user_id))
  then Stop (error "Only the organizer can view RSVPs for this event" 403) else
  let rsvps := event_rsvps event_id db in
  Ret (Json (JArr (map (rsvp_json db) rsvps)) 200, db)).

(** ** Requests that write, and runs of them *)

Inductive request :=
| Register (data : json)
| CreateEvent (user_id : Z) (data : json)
| UpdateEvent (user_id event_id : Z) (data : json)
| DeleteEvent (user_id event_id : Z)
| CreateRsvp (user_id : Z) (data : json)
| CancelRsvp (user_id event_id : Z)
| CreateComment (user_id event_id : Z) (data : json)
| DeleteComment (user_id comment_id : Z).

Definition handle (ctx : Ctx) (rq : request) : handler :=
  match rq with
  | Register data => register ctx data
  | CreateEvent u data => create_event ctx u data
  | UpdateEvent u e data => update_event u e data
  | DeleteEvent u e => delete_event u e
  | CreateRsvp u data => create_rsvp ctx u data
  | CancelRsvp u e => cancel_rsvp u e
  | CreateComment u e data => create_comment ctx u e data
  | DeleteComment u c => delete_comment u c
  end.

(** The store after a list of requests, served one after the other. *)
Definition serve (rqs : list (Ctx * request)) (db : DB) : DB :=
  foldl (fun d '(ctx, rq) => snd (handle ctx rq d)) db rqs.

End Handlers.

(** ** A reference platform

    One instance of [Platform], to run the handlers on concrete requests: a
    strict driver that binds a value of the column's own type only, an
    engine that takes a string up to the declared length of its column, a hash
    that keeps salt and password apart by a dollar sign, and a reader of
    [YYYY-MM-DDTHH:MM:SS], with or without [+00:00], whose instants are the
    digits of the date read as one number. *)

Definition digit (c : ascii) : option Z :=
  let n := (Z.of_nat (nat_of_ascii c) - 48)%Z in
  if (0 <=? n)%Z && (n <=? 9)%Z then Some n else None.

Fixpoint number (acc : Z) (s : string) : option Z :=
  match s with
  | EmptyString => Some acc
  | String c s' => d ← digit c; number (10 * acc + d)%Z s'
  end.

Definition field (s : string) (i n : nat) : option Z :=
  let f := substring i n s in
  if bool_decide (String.length f = n) then number 0 f else None.

Definition between (lo hi x : Z) : option Z :=
  if (lo <=? x)%Z && (x <=? hi)%Z then Some x else None.

Definition read_instant (s : string) : option datetime :=
  let seps := [substring 4 1 s; substring 7 1 s; substring 10 1 s;
               substring 13 1 s; substring 16 1 s] in
  let zone := substring 19 (String.length s - 19) s in
  if bool_decide (seps = ["-"; "-"; "T"; ":"; ":"])
     && (bool_decide (zone = "") || bool_decide (zone = "+00:00"))
  then
    y ← field s 0 4;
    mo ← field s 5 2 ≫= between 1 12;
    d ← field s 8 2 ≫= between 1 31;
    h ← field s 11 2 ≫= between 0 23;
    mi ← field s 14 2 ≫= between 0 59;
    sec ← field s 17 2 ≫= between 0 59;
    Some (((((y * 100 + mo) * 100 + d) * 100 + h) * 100 + mi) * 100 + sec)%Z
  else None.

Definition salted_hash (ctx : Ctx) (v : json) : option string :=
  match v with
  | JStr s => Some (entropy ctx ++ "$" ++ s)
  | _ => None
  end.

Fixpoint after_dollar (h : string) : option string :=
  match h with
  | EmptyString => None
  | String c h' => if Ascii.eqb c "$" then Some h' else after_dollar h'
  end.

Definition salted_check (h : string) (v : json) : option bool :=
  match v, after_dollar h with
  | JStr s, Some p => Some (bool_decide (p = s))
  | _, _ => None
  end.

Definition strict_text (v : json) : option string :=
  match v with JStr s => Some s | _ => None end.

Definition strict_int (v : json) : option Z :=
  match v with JInt z => Some z | _ => None end.

Definition strict_float (v : json) : option float :=
  match v with
  | JFloat f => Some f
  | JInt 0 => Some 0%float
  | _ => None
  end.

Definition strict_varchar (n : nat) (s : string) : bool :=
  bool_decide (String.length s ≤ n)%nat.

#[export] Instance reference_platform : Platform := {|
  generate_password_hash := salted_hash;
  check_password_hash := salted_check;
  create_access_token := fun ctx i => entropy ctx ++ "." ++ pretty i;
  fromisoformat := read_instant;
  isoformat := fun d => pretty d;
  bind_text := strict_text;
  bind_int := strict_int;
  bind_float := strict_float;
  varchar := strict_varchar;
  bind_text_str := fun _ => eq_refl;
  bind_int_int := fun _ => eq_refl;
  bind_float_default := eq_refl;
  bind_float_zero := eq_refl;
  varchar_fits := fun n s => bool_decide_eq_true_2 _
|}.

(** A store to run on: an organizer, a student, and two events of the
    organizer, one free and one priced, the free one with an RSVP. *)
Definition ann : User.t := User.mk 1 "Ann" "ann@example.org" "s$pw-ann" "organizer" None 10.
Definition bob : User.t := User.mk 2 "Bob" "bob@example.org" "s$pw-bob" "student" None 20.
Definition talk : Event.t :=
  Event.mk 1 "Talk" "A talk" 20250301100000 "Hall" (Some 0%float) None 1 30.
Definition gala : Event.t :=
  Event.mk 2 "Gala" "A gala" 20250201190000 "Dome" (Some 25%float) None 1 40.
Definition bob_talk : RSVP.t := RSVP.mk 1 2 1 "free" 50.

Definition sample_db : DB := mkDB [ann; bob] [talk; gala] [bob_talk] [] 3 3 2 1.

Definition at_noon : Ctx := mkCtx 60 "s".

(** Requests and bodies to run on the sample store. *)
Definition bobs_evening : list (Ctx * request) :=
  [(at_noon, CreateRsvp 2 (dict [("event_id", JInt 2)]));
   (at_noon, CreateComment 2 1 (dict [("content", JStr "See you there")]));
   (at_noon, CancelRsvp 2 1)].



Definition zoe : gmap string json :=
  list_to_map [("name", JStr "Zoe"); ("email", JStr "zoe@example.org");
               ("password", JStr "pw-zoe"); ("role", JNull)].

(** ** Statements of the store's invariants *)

Definition rsvp_key (r : RSVP.t) : Z * Z := (RSVP.user_id r, RSVP.event_id r).

(** At most one RSVP per (user_id, event_id). *)
Definition rsvp_unique (db : DB) : Prop := NoDup (map rsvp_key (rsvps db)).


(** The user sequence is ahead of every user id. *)
Definition user_ids_issued (db : DB) : Prop :=
  Forall (fun u => (User.id u < user_seq db)%Z) (users db).

(** The value a request body assigns to an attribute guarded by
    [if data.get(k)]: the value under [k] when it is truthy. *)
Definition given (m : gmap string json) (k : string) : option json :=
  match m !! k with
  | Some v => if truthy v then Some v else None
  | None => None
  end.

(** The same under the guard [if data.get(k) is not None]. *)
Definition given_not_none (m : gmap string json) (k : string) : option json :=
  match m !! k with
  | Some v => if is_none v then None else Some v
  | None => None
  end.

(** An attribute after a patch: the assigned value as the driver binds it,
    or the old value when the body assigns none. *)
Definition patched {A} (bind : json → option A) (v : option json) (old new : A) : Prop :=
  match v with
  | Some j => bind j = Some new
  | None => new = old
  end.

(** The store with one more user, the next id of the sequence taken. *)
Definition with_user (u : User.t) (db : DB) : DB :=
  mkDB (users db ++ [u]) (events db) (rsvps db) (comments db)
       (user_seq db + 1) (event_seq db) (rsvp_seq db) (comment_seq db).

(** The primary keys of a table: no key twice, and each one issued by the
    table's sequence before its next value. *)
Definition keys_ok {A} (id : A → Z) (seq : Z) (rows : list A) : Prop :=
  NoDup (map id rows) ∧ Forall (fun x => (id x < seq)%Z) rows.

Definition store_ok (db : DB) : Prop :=
  keys_ok User.id (user_seq db) (users db)
  ∧ keys_ok Event.id (event_seq db) (events db)
  ∧ keys_ok RSVP.id (rsvp_seq db) (rsvps db)
  ∧ keys_ok Comment.id (comment_seq db) (comments db).

(** Every stored RSVP is free or pending. *)
Definition payment_known (db : DB) : Prop :=
  Forall (fun r => RSVP.payment_status r = "free" ∨ RSVP.payment_status r = "pending")
         (rsvps db).

(** Every stored event belongs to a stored user whose role is organizer. *)
Definition events_have_organizers (db : DB) : Prop :=
  Forall (fun e => ∃ u, get_user (Event.organizer_id e) db = Some u
                        ∧ User.role u = "organizer")
         (events db).

(** What a request can do to the store: nothing, or one of the eight
    writes, each with what its handler checked before it committed. *)
Inductive effect (db : DB) : DB → Prop :=
| effect_none : effect db db
| effect_user (u : User.t) :
    User.id u = user_seq db → user_by_email (User.email u) db = None →
    effect db (with_user u db)
| effect_event (e : Event.t) (u : User.t) :
    Event.id e = event_seq db →
    get_user (Event.organizer_id e) db = Some u → User.role u = "organizer" →
    effect db (mkDB (users db) (events db ++ [e]) (rsvps db) (comments db)
                    (user_seq db) (event_seq db + 1) (rsvp_seq db) (comment_seq db))
| effect_save (ev ev' : Event.t) :
    get_event_row (Event.id ev) db = Some ev →
    Event.id ev' = Event.id ev → Event.organizer_id ev' = Event.organizer_id ev →
    Event.created_at ev' = Event.created_at ev →
    effect db (save_event ev' db)
| effect_delete_event (ev : Event.t) :
    get_event_row (Event.id ev) db = Some ev →
    event_rsvps (Event.id ev) db = [] → event_comments (Event.id ev) db = [] →
    effect db (mkDB (users db)
                    (filter (fun x => Event.id x ≠ Event.id ev) (events db))
                    (rsvps db) (comments db)
                    (user_seq db) (event_seq db) (rsvp_seq db) (comment_seq db))
| effect_rsvp (r : RSVP.t) (ev : Event.t) :
    RSVP.id r = rsvp_seq db →
    get_event_row (RSVP.event_id r) db = Some ev →
    rsvp_of (RSVP.user_id r) (RSVP.event_id r) db = None →
    RSVP.payment_status r
    = (if price_is_zero (Event.price ev) then "free" else "pending") →
    effect db (mkDB (users db) (events db) (rsvps db ++ [r]) (comments db)
                    (user_seq db) (event_seq db) (rsvp_seq db + 1) (comment_seq db))
| effect_cancel (r : RSVP.t) :
    rsvp_of (RSVP.user_id r) (RSVP.event_id r) db = Some r →
    effect db (session_delete_rsvp r db)
| effect_comment (c : Comment.t) :
    Comment.id c = comment_seq db →
    effect db (mkDB (users db) (events db) (rsvps db) (comments db ++ [c])
                    (user_seq db) (event_seq db) (rsvp_seq db) (comment_seq db + 1))
| effect_delete_comment (c : Comment.t) :
    get_comment_row (Comment.id c) db = Some c →
    effect db (session_delete_comment c db).

(** A column value on INSERT: the driver's binding of the body's value, or
    the default when the body has none or has null. *)
Definition defaulted {A} (bind : json → option A) (dflt : A) (v : option json)
    (new : A) : Prop :=
  match v with
  | None | Some JNull => new = dflt
  | Some j => bind j = Some new
  end.

Definition is_object (v : json) : bool :=
  match v with JObj _ => true | _ => false end.

(** The value of a key of a JSON object, as a client reads it. *)
Definition json_field (v : json) (k : string) : option json :=
  match v with
  | JObj m => m !! k
  | _ => None
  end.

(** The string has no capital Z. *)
Definition no_Z (s : string) : Prop :=
  Forall (fun c => c ≠ "Z"%char) (list_ascii_of_string s).

Definition date_le (a b : Event.t) : Prop := (Event.date a <= Event.date b)%Z.
Definition timestamp_ge (a b : Comment.t) : Prop :=
  (Comment.timestamp b <= Comment.timestamp a)%Z.

(** * Properties *)

(** ** ORDER BY *)

Section OrderBy.
Context {A : Type} (le : A → A → bool) (R : A → A → Prop).
Hypothesis le_sound : ∀ x y, le x y = true → R x y.
Hypothesis le_total : ∀ x y, le x y = false → R y x.
Hypothesis R_trans : ∀ x y z, R x y → R y z → R x z.

Lemma insert_by_perm (x : A) (l : list A) : Permutation (insert_by le x l) (x :: l).
Proof.
  induction l as [|y l IH]; simpl.
  - reflexivity.
  - destruct (le x y).
    + reflexivity.
    + rewrite IH. apply perm_swap.
Qed.

Lemma order_by_perm (l : list A) : Permutation (order_by le l) l.
Proof.
  induction l as [|x l IH]; simpl.
  - reflexivity.
  - rewrite insert_by_perm. now constructor.
Qed.

Lemma insert_by_hdrel (a x : A) (l : list A) :
  R a x → HdRel R a l → HdRel R a (insert_by le x l).
Proof.
  intros Hax Hal. destruct l as [|y l]; simpl.
  - now constructor.
  - destruct (le x y); constructor; trivial.
    now inversion Hal.
Qed.

Lemma insert_by_sorted (x : A) (l : list A) :
  Sorted R l → Sorted R (insert_by le x l).
Proof.
  induction 1 as [|y l Hl IH Hy]; simpl.
  - repeat constructor.
  - destruct (le x y) eqn:E.
    + constructor; [now constructor | constructor; auto].
    + constructor; [exact IH | apply insert_by_hdrel; auto].
Qed.

Lemma order_by_sorted (l : list A) : StronglySorted R (order_by le l).
Proof.
  apply Sorted_StronglySorted.
  - intros x y z; apply R_trans.
  - induction l as [|x l IH]; simpl.
    + constructor.
    + now apply insert_by_sorted.
Qed.

End OrderBy.

Lemma order_by_date_asc (l : list Event.t) :
  StronglySorted date_le (order_by date_asc l) ∧ Permutation (order_by date_asc l) l.
Proof.
  split; [|apply order_by_perm].
  apply order_by_sorted; unfold date_asc, date_le; intros; lia.
Qed.

Lemma order_by_timestamp_desc (l : list Comment.t) :
  StronglySorted timestamp_ge (order_by timestamp_desc l)
  ∧ Permutation (order_by timestamp_desc l) l.
Proof.
  split; [|apply order_by_perm].
  apply order_by_sorted; unfold timestamp_desc, timestamp_ge; intros; lia.
Qed.

Section Listings.
Context {P : Platform}.

(** C9: in every state of the store, GET /api/events answers 200 with one
    entry per event, the rows taken in ascending order of their date, and
    GET /api/events/<id>/comments answers 200 with one entry per comment of
    that event, the rows taken in descending order of their timestamp;
    neither request changes the store. *)
Theorem listings_are_sorted (db : DB) (event_id : Z) :
  (∃ rows,
      get_events db = (Json (JArr (map (event_json db) rows)) 200, db)
      ∧ Permutation rows (events db)
      ∧ StronglySorted date_le rows)
  ∧ (∃ rows,
      get_comments event_id db = (Json (JArr (map (comment_json db) rows)) 200, db)
      ∧ Permutation rows (filter (fun c => Comment.event_id c = event_id) (comments db))
      ∧ StronglySorted timestamp_ge rows).
Proof.
  split.
  - exists (order_by date_asc (events db)).
    destruct (order_by_date_asc (events db)) as [Hs Hp]. auto.
  - exists (order_by timestamp_desc (event_comments event_id db)).
    destruct (order_by_timestamp_desc (event_comments event_id db)) as [Hs Hp]. auto.
Qed.

End Listings.

(** ** Reading a handler's body *)

Ltac unfold_res :=
  unfold run, mbind, res_bind, mret, res_ret, raised, raise, get_or_404,
    with_default, nullable, assigned, insert_user, insert_event, insert_rsvp,
    insert_comment in *.

Ltac destruct_inner x :=
  lazymatch x with
  | context [match ?y with _ => _ end] => destruct_inner y
  | _ => destruct x eqn:?
  end.

Ltac case_body :=
  repeat (simpl in *;
          match goal with
          | |- context [match ?x with _ => _ end] => destruct_inner x
          end);
  simpl in *.

Lemma map_fmap {A B} (f : A → B) (l : list A) : map f l = f <$> l.
Proof. reflexivity. Qed.


Lemma NoDup_map_snoc {A B} (f : A → B) (l : list A) (x : A) :
  NoDup (map f l) → f x ∉ map f l → NoDup (map f (l ++ [x])).
Proof.
  intros Hnd Hx. rewrite map_app. simpl.
  apply NoDup_app. repeat split; trivial.
  - intros y Hy Hy'. apply list_elem_of_singleton in Hy'. now subst.
  - apply NoDup_singleton.
Qed.

Lemma NoDup_map_filter {A B} (f : A → B) (Q : A → Prop) `{∀ x, Decision (Q x)}
    (l : list A) :
  NoDup (map f l) → NoDup (map f (filter Q l)).
Proof.
  rewrite map_fmap. intros Hnd.
  eapply sublist_NoDup; [exact Hnd|].
  rewrite map_fmap. apply fmap_sublist, sublist_filter.
Qed.

(** ** What a request does to the RSVP and user tables *)

(** The three ways a request leaves the RSVP table: as it was, with a row
    appended for a pair that had none, or without the rows of one key. *)
Definition rsvps_step (db db' : DB) : Prop :=
  rsvps db' = rsvps db
  ∨ (∃ r, rsvps db' = (rsvps db ++ [r])%list
          ∧ rsvp_of (RSVP.user_id r) (RSVP.event_id r) db = None)
  ∨ (∃ r, rsvps db' = filter (fun x => RSVP.id x ≠ RSVP.id r) (rsvps db)).


Lemma rsvp_of_none_fresh (u e : Z) (db : DB) :
  rsvp_of u e db = None → (u, e) ∉ map rsvp_key (rsvps db).
Proof.
  unfold rsvp_of. induction (rsvps db) as [|r l IH]; simpl.
  - intros _. apply not_elem_of_nil.
  - destruct (bool_decide (RSVP.user_id r = u)) eqn:Eu;
      destruct (bool_decide (RSVP.event_id r = e)) eqn:Ee; simpl;
      try discriminate;
      intros Hf Hin; apply elem_of_cons in Hin as [Hx|Hin];
      try (now apply IH);
      unfold rsvp_key in Hx; inversion Hx; subst;
      rewrite ?bool_decide_eq_false in *; congruence.
Qed.

Lemma rsvps_step_unique (db db' : DB) :
  rsvps_step db db' → rsvp_unique db → rsvp_unique db'.
Proof.
  unfold rsvp_unique.
  intros [E | [(r & E & Hnone) | (r & E)]] Hnd; rewrite E.
  - exact Hnd.
  - apply NoDup_map_snoc; trivial. now apply rsvp_of_none_fresh.
  - now apply NoDup_map_filter.
Qed.


Section Steps.
Context {P : Platform}.


Lemma handle_rsvps_step ctx rq db : rsvps_step db (snd (handle ctx rq db)).
Proof.
  destruct rq; simpl.
  - unfold register. unfold_res. case_body; simplify_eq; now left.
  - unfold create_event. unfold_res. case_body; simplify_eq; now left.
  - unfold update_event, supplied, supplied_not_none, parse_date. unfold_res.
    case_body; simplify_eq; now left.
  - unfold delete_event, session_delete_event. unfold_res.
    case_body; simplify_eq; now left.
  - unfold create_rsvp. unfold_res. case_body; simplify_eq; try (now left);
      right; left; eexists; (split; [reflexivity|]); simpl; assumption.
  - unfold cancel_rsvp. unfold_res. case_body; simplify_eq; try (now left);
      right; right; eexists; reflexivity.
  - unfold create_comment. unfold_res. case_body; simplify_eq; now left.
  - unfold delete_comment. unfold_res. case_body; simplify_eq; now left.
Qed.


Lemma serve_preserves (I : DB → Prop) :
  (∀ ctx rq db, I db → I (snd (handle ctx rq db))) →
  ∀ rqs db, I db → I (serve rqs db).
Proof.
  intros Hstep rqs. unfold serve.
  induction rqs as [|[ctx rq] rqs IH]; simpl; intros db Hdb; auto.
Qed.

End Steps.

(** ** RSVPs *)

(** Rewrites the goal with the equations at hand, as far as they go. *)
Ltac follow :=
  repeat (simpl;
          match goal with
          | H : ?l = _ |- context [?l] => rewrite H
          end);
  simpl.

Lemma dict_truthy (m : gmap string json) (k : string) (v : json) :
  m !! k = Some v → truthy (JObj m) = true.
Proof.
  intros Hk. simpl. apply negb_true_iff, bool_decide_eq_false.
  intros Hsize. apply map_size_empty_iff in Hsize. subst.
  now rewrite lookup_empty in Hk.
Qed.

(** *** What makes a step of a body stop *)

Lemma py_get_default_stop data k dflt r : py_get_default data k dflt = Stop r → r = Abort 500.
Proof. destruct data; simpl; unfold raise; intros; simplify_eq; reflexivity. Qed.

Lemma py_get_stop data k r : py_get data k = Stop r → r = Abort 500.
Proof. apply py_get_default_stop. Qed.

Lemma py_item_stop data k r : py_item data k = Stop r → r = Abort 500.
Proof.
  destruct data; simpl; unfold raised, raise; intros; simplify_eq; try reflexivity.
  destruct (m !! k); simplify_eq. reflexivity.
Qed.

Lemma any_falsy_stop data ks r : any_falsy data ks = Stop r → r = Abort 500.
Proof.
  induction ks as [|k ks IH]; simpl; [discriminate|].
  destruct (py_get data k) as [v|r'] eqn:E; simpl.
  - destruct (truthy v); [exact IH | discriminate].
  - intros; simplify_eq. now apply py_get_stop in E.
Qed.

Lemma not_data_or_stop data ks r : not_data_or data ks = Stop r → r = Abort 500.
Proof.
  unfold not_data_or. destruct (truthy data); [apply any_falsy_stop | discriminate].
Qed.

Ltac stops :=
  repeat match goal with
  | H : py_get_default _ _ _ = Stop _ |- _ => apply py_get_default_stop in H; subst
  | H : py_get _ _ = Stop _ |- _ => apply py_get_stop in H; subst
  | H : py_item _ _ = Stop _ |- _ => apply py_item_stop in H; subst
  | H : not_data_or _ _ = Stop _ |- _ => apply not_data_or_stop in H; subst
  end.

(** *** What the guard of a body says of the body *)

Lemma any_falsy_obj (m : gmap string json) (ks : list string) :
  any_falsy (JObj m) ks
  = Ret (existsb (fun k => negb (truthy (default JNull (m !! k)))) ks).
Proof.
  induction ks as [|k ks IH]; simpl; [reflexivity|].
  destruct (truthy (default JNull (m !! k))); simpl; [exact IH | reflexivity].
Qed.

Lemma none_falsy_all_truthy {A} (f : A → bool) (l : list A) :
  existsb (fun x => negb (f x)) l = false → forallb f l = true.
Proof.
  induction l as [|x l IH]; simpl; [reflexivity|].
  destruct (f x); simpl; [exact IH | intros [=]].
Qed.

Lemma not_data_or_false (data : json) (k : string) (ks : list string) :
  not_data_or data (k :: ks) = Ret false →
  ∃ m, data = JObj m
       ∧ forallb (fun k => truthy (default JNull (m !! k))) (k :: ks) = true.
Proof.
  intros Hf. unfold not_data_or in Hf.
  destruct (truthy data) eqn:Ht; [|discriminate].
  destruct data as [| | | | | |m];
    try (simpl in Hf; unfold raise in Hf; simpl in Hf; discriminate).
  rewrite any_falsy_obj in Hf. exists m. split; [reflexivity|].
  apply none_falsy_all_truthy. congruence.
Qed.

Lemma not_data_or_obj (m : gmap string json) (ks : list string) :
  not_data_or (JObj m) ks
  = Ret (negb (truthy (JObj m))
         || existsb (fun k => negb (truthy (default JNull (m !! k)))) ks).
Proof.
  unfold not_data_or. rewrite any_falsy_obj. now destruct (truthy (JObj m)).
Qed.

Section Rsvp.
Context {P : Platform}.

Lemma create_rsvp_duplicate ctx u e m v ev r db :
  m !! "event_id" = Some v → truthy v = true → bind_int v = Some e →
  get_event_row e db = Some ev → rsvp_of u e db = Some r →
  create_rsvp ctx u (JObj m) db = (error "Already RSVP'd to this event" 400, db).
Proof.
  intros Hm Hv Hb Hev Hr.
  unfold create_rsvp, run, not_data_or.
  rewrite (dict_truthy m _ _ Hm). now follow.
Qed.

(** C1: a POST /api/rsvp by [u] for an event [e] of the store, when an RSVP
    of [u] for [e] exists, is answered 400 with the duplicate error and
    leaves the store as it was; every request keeps the pairs
    (user_id, event_id) of the RSVP table free of repeats, and so does every
    run of requests, from a store with no repeats and from the empty one. *)
Theorem rsvp_at_most_once :
  (∀ ctx u e m v ev r db,
      m !! "event_id" = Some v → truthy v = true → bind_int v = Some e →
      get_event_row e db = Some ev → rsvp_of u e db = Some r →
      create_rsvp ctx u (JObj m) db = (error "Already RSVP'd to this event" 400, db))
  ∧ (∀ ctx rq db, rsvp_unique db → rsvp_unique (snd (handle ctx rq db)))
  ∧ (∀ rqs db, rsvp_unique db → rsvp_unique (serve rqs db))
  ∧ (∀ rqs, rsvp_unique (serve rqs empty_db)).
Proof.
  assert (Hstep : ∀ ctx rq db, rsvp_unique db → rsvp_unique (snd (handle ctx rq db))).
  { intros ctx rq db. apply rsvps_step_unique, handle_rsvps_step. }
  repeat split.
  - apply create_rsvp_duplicate.
  - exact Hstep.
  - now apply serve_preserves.
  - intros rqs. apply serve_preserves; trivial. apply NoDup_nil_2.
Qed.

(** What an answer 201 of POST /api/rsvp says of the request and of the
    store it leaves: the event is the one the body names. *)
Lemma create_rsvp_ok ctx u data db r db' :
  create_rsvp ctx u data db = (r, db') → status_of r = 201 →
  ∃ m v e ev,
    data = JObj m
    ∧ m !! "event_id" = Some v ∧ truthy v = true ∧ bind_int v = Some e
    ∧ get_event_row e db = Some ev
    ∧ rsvp_of u e db = None
    ∧ r = message "RSVP created successfully" 201
    ∧ db' = mkDB (users db) (events db)
              (rsvps db ++ [RSVP.mk (rsvp_seq db) u e
                              (if price_is_zero (Event.price ev)
                               then "free" else "pending") (utcnow ctx)])
              (comments db)
              (user_seq db) (event_seq db) (rsvp_seq db + 1) (comment_seq db).
Proof.
  unfold create_rsvp, run. intros Hrun Hst.
  destruct (not_data_or data _) as [[|]|r0] eqn:Hmiss; simpl in Hrun;
    [simplify_eq; discriminate| |stops; simplify_eq; discriminate].
  apply not_data_or_false in Hmiss as (m & -> & Hall). simpl in Hrun, Hall.
  apply andb_prop in Hall as [Hv _].
  destruct (m !! "event_id") as [v|] eqn:Hm; [|discriminate]. simpl in *.
  destruct (bind_int v) as [e|] eqn:Hb; simpl in Hrun; [|simplify_eq; discriminate].
  destruct (get_event_row e db) as [ev|] eqn:Hev; simpl in Hrun;
    [|simplify_eq; discriminate].
  destruct (rsvp_of u e db) eqn:Hnone; simpl in Hrun; [simplify_eq; discriminate|].
  unfold insert_rsvp in Hrun. simpl in Hrun. simplify_eq.
  exists m, v, e, ev. repeat split; trivial.
Qed.

(** C2: when POST /api/rsvp answers 201, the body is an object whose
    event_id the driver binds to the id [e] of a stored event, and the
    store has one more RSVP, the caller's for that event.  Its
    payment_status is free exactly when the price of the event [e], as
    stored before the request, is a number equal to 0, and pending exactly
    when it is NULL or a number not equal to 0; it is never anything
    else. *)
Theorem payment_status_at_creation ctx u data db r db' :
  create_rsvp ctx u data db = (r, db') → status_of r = 201 →
  ∃ m v e ev status,
    data = JObj m
    ∧ m !! "event_id" = Some v ∧ bind_int v = Some e
    ∧ get_event_row e db = Some ev
    ∧ rsvps db' = (rsvps db ++ [RSVP.mk (rsvp_seq db) u e status (utcnow ctx)])%list
    ∧ (status = "free"
       ↔ ∃ p, Event.price ev = Some p ∧ PrimFloat.eqb p 0%float = true)
    ∧ (status = "pending"
       ↔ Event.price ev = None
         ∨ ∃ p, Event.price ev = Some p ∧ PrimFloat.eqb p 0%float = false)
    ∧ (status = "free" ∨ status = "pending").
Proof.
  intros Hrun Hst.
  destruct (create_rsvp_ok _ _ _ _ _ _ Hrun Hst)
    as (m & v & e & ev & -> & Hm & _ & Hb & Hev & _ & _ & ->).
  exists m, v, e, ev. eexists.
  split; [reflexivity|]. split; [exact Hm|]. split; [exact Hb|].
  split; [exact Hev|]. split; [reflexivity|].
  unfold price_is_zero.
  destruct (Event.price ev) as [p|]; [destruct (PrimFloat.eqb p 0%float) eqn:Hp|].
  - split; [|split].
    + split; [eauto | reflexivity].
    + split; [discriminate|].
      intros [[=] | (q & [= <-] & Hq)]. congruence.
    + now left.
  - split; [|split].
    + split; [discriminate|]. intros (q & [= <-] & Hq). congruence.
    + split; [eauto | reflexivity].
    + now right.
  - split; [|split].
    + split; [discriminate|]. intros (q & [=] & _).
    + split; [now left | reflexivity].
    + now right.
Qed.

End Rsvp.

(** ** Ownership of events *)

Lemma get_event_row_id (e : Z) (db : DB) (ev : Event.t) :
  get_event_row e db = Some ev → Event.id ev = e ∧ ev ∈ events db.
Proof.
  intros Hf. apply find_some in Hf as [Hin Hid].
  apply bool_decide_eq_true in Hid. split; [exact Hid | now apply list_elem_of_In].
Qed.

Section Ownership.
Context {P : Platform}.

Lemma update_event_forbidden c e data db ev :
  get_event_row e db = Some ev → Event.organizer_id ev ≠ c →
  update_event c e data db = (error "Only the organizer can update this event" 403, db).
Proof.
  intros Hev Hne. unfold update_event, run. rewrite Hev. simpl.
  now rewrite bool_decide_false.
Qed.

Lemma delete_event_forbidden c e db ev :
  get_event_row e db = Some ev → Event.organizer_id ev ≠ c →
  delete_event c e db = (error "Only the organizer can delete this event" 403, db).
Proof.
  intros Hev Hne. unfold delete_event, run. rewrite Hev. simpl.
  now rewrite bool_decide_false.
Qed.

(** C3: for an event [ev] of the store and a caller [c], PUT and DELETE on
    /api/events/<id> by a caller other than [ev]'s organizer are answered
    403 with the forbidden error and leave the whole store (the event, its
    RSVPs and its comments with it) as it was; an answer 200 of either
    route means that the caller is the organizer. *)
Theorem only_organizer_mutates (c e : Z) (data : json) (db : DB) (ev : Event.t) :
  get_event_row e db = Some ev →
  (Event.organizer_id ev ≠ c →
     update_event c e data db
       = (error "Only the organizer can update this event" 403, db)
     ∧ delete_event c e db
       = (error "Only the organizer can delete this event" 403, db))
  ∧ (status_of (fst (update_event c e data db)) = 200 → Event.organizer_id ev = c)
  ∧ (status_of (fst (delete_event c e db)) = 200 → Event.organizer_id ev = c).
Proof.
  intros Hev. split; [|split].
  - intros Hne. split.
    + now apply (update_event_forbidden c e data db ev).
    + now apply (delete_event_forbidden c e db ev).
  - destruct (decide (Event.organizer_id ev = c)) as [|Hne]; [trivial|].
    rewrite (update_event_forbidden c e data db ev Hev Hne). discriminate.
  - destruct (decide (Event.organizer_id ev = c)) as [|Hne]; [trivial|].
    rewrite (delete_event_forbidden c e db ev Hev Hne). discriminate.
Qed.

End Ownership.

(** ** Deleting an event *)

(** With an RSVP or a comment on the event, the organizer's DELETE raises at
    commit: the answer is 500 and nothing is deleted. *)
Lemma delete_event_with_dependents (c e : Z) (db : DB) (ev : Event.t) :
  get_event_row e db = Some ev → Event.organizer_id ev = c →
  event_rsvps e db ≠ [] ∨ event_comments e db ≠ [] →
  delete_event c e db = (Abort 500, db).
Proof.
  intros Hev Hc Hdep. destruct (get_event_row_id _ _ _ Hev) as [Hid _].
  unfold delete_event, run. rewrite Hev. simpl.
  rewrite bool_decide_true by assumption. simpl.
  unfold session_delete_event. rewrite Hid.
  destruct (event_rsvps e db), (event_comments e db); simpl; try reflexivity.
  destruct Hdep; congruence.
Qed.

(** Without one, it deletes the event row and nothing else. *)
Lemma delete_event_without_dependents (c e : Z) (db db' : DB) (r : response) :
  delete_event c e db = (r, db') → status_of r = 200 →
  event_rsvps e db = [] ∧ event_comments e db = []
  ∧ events db' = filter (fun x => Event.id x ≠ e) (events db)
  ∧ users db' = users db ∧ rsvps db' = rsvps db ∧ comments db' = comments db.
Proof.
  unfold delete_event, run. destruct (get_event_row e db) as [ev|] eqn:Hev; simpl.
  - destruct (get_event_row_id _ _ _ Hev) as [Hid _].
    destruct (bool_decide (Event.organizer_id ev = c)); simpl.
    + unfold session_delete_event. rewrite Hid.
      destruct (event_rsvps e db), (event_comments e db); simpl;
        intros; simplify_eq; try discriminate.
      repeat split; reflexivity.
    + intros; simplify_eq; discriminate.
  - intros; simplify_eq; discriminate.
Qed.

(** C4: the organizer's DELETE of an event that has an RSVP.  The request
    is answered 500 and the store keeps the event and its RSVP: nothing is
    removed, neither the event nor its dependents. *)
Theorem delete_event_keeps_dependents :
  get_event_row 1 sample_db = Some talk
  ∧ Event.organizer_id talk = 1
  ∧ event_rsvps 1 sample_db = [bob_talk]
  ∧ delete_event 1 1 sample_db = (Abort 500, sample_db).
Proof. repeat split; vm_compute; reflexivity. Qed.

(** ** Updating an event *)

Lemma supplied_obj (m : gmap string json) (k : string) :
  supplied (JObj m) k = Ret (given m k).
Proof.
  unfold supplied, given. simpl. destruct (m !! k) as [v|]; simpl; [|reflexivity].
  now destruct (truthy v).
Qed.

Lemma supplied_not_none_obj (m : gmap string json) (k : string) :
  supplied_not_none (JObj m) k = Ret (given_not_none m k).
Proof.
  unfold supplied_not_none, given_not_none. simpl.
  destruct (m !! k) as [v|]; simpl; [|reflexivity].
  now destruct (is_none v).
Qed.

Lemma supplied_stop data k r : supplied data k = Stop r → r = Abort 500.
Proof.
  unfold supplied. unfold_res. case_body; intros; simplify_eq; stops; reflexivity.
Qed.

Lemma assigned_ret {A} (bind : json → option A) (old new : A) (v : option json) :
  assigned bind old v = Ret new → patched bind v old new.
Proof.
  unfold assigned, patched, raised, raise.
  destruct v as [j|]; [destruct (bind j)|]; intros; simplify_eq; reflexivity.
Qed.

Lemma assigned_stop {A} (bind : json → option A) (old : A) (v : option json) r :
  assigned bind old v = Stop r → r = Abort 500.
Proof.
  unfold assigned, raised, raise.
  destruct v as [j|]; [destruct (bind j)|]; intros; simplify_eq; reflexivity.
Qed.

Section Update.
Context {P : Platform}.

(** What a column keeps is what the driver bound. *)
Lemma stored_some n s s' : stored n s = Some s' → s' = s ∧ varchar n s = true.
Proof. unfold stored. destruct (varchar n s); intros [=]; auto. Qed.

Lemma column_some n v s :
  column n v = Some s → bind_text v = Some s ∧ varchar n s = true.
Proof.
  unfold column. destruct (bind_text v) as [s0|]; simpl; [|discriminate].
  intros Hs. apply stored_some in Hs as [-> Hs]. auto.
Qed.

Lemma column_str n s : varchar n s = true → column n (JStr s) = Some s.
Proof. intros Hs. unfold column, stored. rewrite bind_text_str. simpl. now rewrite Hs. Qed.

Lemma patched_column n v old new :
  patched (column n) v old new → patched bind_text v old new.
Proof. destruct v; simpl; [|trivial]. intros Hc. now apply column_some in Hc. Qed.

Lemma patched_column_opt n v old new :
  patched (fun j => Some <$> column n j) v old new →
  patched (fun j => Some <$> bind_text j) v old new.
Proof.
  destruct v as [j|]; simpl; [|trivial].
  destruct (column n j) as [s|] eqn:Hc; simpl; [|discriminate].
  apply column_some in Hc as [-> _]. trivial.
Qed.

Lemma defaulted_column n dflt v new :
  defaulted (column n) dflt v new → defaulted bind_text dflt v new.
Proof.
  destruct v as [[]|]; simpl; trivial; intros Hc; now apply column_some in Hc.
Qed.


Lemma parse_date_ret v d : parse_date v = Ret d → date_of v = Some d.
Proof.
  unfold parse_date, date_of, raise.
  destruct v; try discriminate. destruct (fromisoformat _); intros; simplify_eq.
  reflexivity.
Qed.

(** What an answer 200 of PUT /api/events/<event_id> says of the request
    and of the store it leaves, column by column. *)
Lemma update_event_columns c e data db r db' :
  update_event c e data db = (r, db') → status_of r = 200 →
  ∃ m ev ev',
    data = JObj m
    ∧ get_event_row e db = Some ev
    ∧ Event.organizer_id ev = c
    ∧ db' = save_event ev' db
    ∧ Event.id ev' = Event.id ev
    ∧ Event.organizer_id ev' = Event.organizer_id ev
    ∧ Event.created_at ev' = Event.created_at ev
    ∧ patched (column 200) (given m "title") (Event.title ev) (Event.title ev')
    ∧ patched bind_text (given m "description")
              (Event.description ev) (Event.description ev')
    ∧ patched date_of (given m "date") (Event.date ev) (Event.date ev')
    ∧ patched (column 200) (given m "location") (Event.location ev) (Event.location ev')
    ∧ patched (fun j => Some <$> bind_float j) (given_not_none m "price")
              (Event.price ev) (Event.price ev')
    ∧ patched (fun j => Some <$> column 255 j) (given m "banner")
              (Event.banner ev) (Event.banner ev').
Proof.
  unfold update_event, run. intros Hrun Hst.
  destruct (get_event_row e db) as [ev|] eqn:Hev; simpl in Hrun;
    [|simplify_eq; discriminate].
  destruct (bool_decide (Event.organizer_id ev = c)) eqn:Hc; simpl in Hrun;
    [|simplify_eq; discriminate].
  apply bool_decide_eq_true in Hc.
  destruct data as [| | | | | |m];
    try (unfold supplied in Hrun; simpl in Hrun; simplify_eq; discriminate).
  rewrite !supplied_obj, supplied_not_none_obj in Hrun. simpl in Hrun.
  assert (Hdate : ∃ d, patched date_of (given m "date") (Event.date ev) d
                       ∧ match given m "date" with
                         | Some v => parse_date v
                         | None => Ret (Event.date ev)
                         end = Ret d).
  { destruct (given m "date") as [dv|]; simpl.
    - destruct (parse_date dv) as [d|rd] eqn:Hpd.
      + exists d. split; [now apply parse_date_ret | reflexivity].
      + simpl in Hrun. simplify_eq.
        unfold parse_date, raise in Hpd.
        destruct dv; simplify_eq; try discriminate.
        destruct (fromisoformat _); simplify_eq; discriminate.
    - eexists. split; reflexivity. }
  destruct Hdate as (d & Hpd & Hd). rewrite Hd in Hrun. simpl in Hrun.
  repeat match type of Hrun with
  | context [assigned ?b ?o ?v] =>
      let E := fresh "Ha" in
      destruct (assigned b o v) eqn:E; simpl in Hrun;
      [apply assigned_ret in E
      |apply assigned_stop in E; subst; simplify_eq; discriminate]
  end.
  simplify_eq.
  eexists m, ev, _. repeat split; simpl; assumption.
Qed.

(** What an answer 200 of PUT /api/events/<event_id> says of the request
    and of the store it leaves. *)
Lemma update_event_ok c e data db r db' :
  update_event c e data db = (r, db') → status_of r = 200 →
  ∃ m ev ev',
    data = JObj m
    ∧ get_event_row e db = Some ev
    ∧ Event.organizer_id ev = c
    ∧ db' = save_event ev' db
    ∧ Event.id ev' = Event.id ev
    ∧ Event.organizer_id ev' = Event.organizer_id ev
    ∧ Event.created_at ev' = Event.created_at ev
    ∧ patched bind_text (given m "title") (Event.title ev) (Event.title ev')
    ∧ patched bind_text (given m "description")
              (Event.description ev) (Event.description ev')
    ∧ patched date_of (given m "date") (Event.date ev) (Event.date ev')
    ∧ patched bind_text (given m "location") (Event.location ev) (Event.location ev')
    ∧ patched (fun j => Some <$> bind_float j) (given_not_none m "price")
              (Event.price ev) (Event.price ev')
    ∧ patched (fun j => Some <$> bind_text j) (given m "banner")
              (Event.banner ev) (Event.banner ev').
Proof.
  intros Hrun Hst.
  destruct (update_event_columns _ _ _ _ _ _ Hrun Hst)
    as (m & ev & ev' & -> & Hev & Hc & -> & Hid & Ho & Hcr
        & Ht & Hs & Hd & Hl & Hp & Hb).
  exists m, ev, ev'. repeat split; try assumption.
  - now apply (patched_column 200).
  - now apply (patched_column 200).
  - now apply (patched_column_opt 255).
Qed.

End Update.

Lemma save_event_same (e : Z) (ev ev' : Event.t) (db : DB) :
  get_event_row e db = Some ev → Event.id ev' = e →
  get_event_row e (save_event ev' db) = Some ev'.
Proof.
  unfold get_event_row, save_event. simpl. intros Hf Hid.
  induction (events db) as [|x l IH]; simpl in *; [discriminate|].
  destruct (bool_decide (Event.id x = e)) eqn:Hx.
  - apply bool_decide_eq_true in Hx.
    rewrite (bool_decide_true (Event.id x = Event.id ev')) by congruence. simpl.
    now rewrite bool_decide_true.
  - rewrite (bool_decide_false (Event.id x = Event.id ev'))
      by (apply bool_decide_eq_false in Hx; congruence).
    simpl. rewrite Hx. now apply IH.
Qed.


Section Patch.
Context {P : Platform}.


End Patch.

(** ** Dates in request bodies *)

Lemma with_default_stop {A} (bind : json → option A) (dflt : A) v r :
  with_default bind dflt v = Stop r → r = Abort 500.
Proof.
  unfold with_default, raised, raise.
  destruct v; try destruct (bind _); intros; simplify_eq; reflexivity.
Qed.

Lemma nullable_stop {A} (bind : json → option A) v r :
  nullable bind v = Stop r → r = Abort 500.
Proof.
  unfold nullable, raised, raise.
  destruct v; simpl; try destruct (bind _); simpl; intros; simplify_eq; reflexivity.
Qed.

Section Dates.
Context {P : Platform}.

Lemma parse_date_stop v r :
  parse_date v = Stop r → r = Abort 500 ∨ r = error "Invalid date format" 400.
Proof.
  unfold parse_date, raise.
  destruct v; try destruct (fromisoformat _); intros; simplify_eq; auto.
Qed.

Lemma given_empty_date (m : gmap string json) :
  m !! "date" = Some (JStr "") → given m "date" = None.
Proof. unfold given. now intros ->. Qed.

Lemma given_date (m : gmap string json) (s : string) :
  m !! "date" = Some (JStr s) → s ≠ "" → given m "date" = Some (JStr s).
Proof.
  unfold given. intros -> Hs. simpl. now rewrite bool_decide_false.
Qed.

(** What an answer 201 of POST /api/events says of the request and of the
    store it leaves. *)
Lemma create_event_ok ctx c data db r db' :
  create_event ctx c data db = (r, db') → status_of r = 201 →
  ∃ m u ev',
    data = JObj m
    ∧ get_user c db = Some u ∧ User.role u = "organizer"
    ∧ events db' = (events db ++ [ev'])%list
    ∧ users db' = users db ∧ rsvps db' = rsvps db ∧ comments db' = comments db
    ∧ Event.id ev' = event_seq db
    ∧ Event.organizer_id ev' = c
    ∧ Event.created_at ev' = utcnow ctx
    ∧ date_of (default JNull (m !! "date")) = Some (Event.date ev').
Proof.
  unfold create_event, run. intros Hrun Hst.
  destruct (get_user c db) as [u|] eqn:Hu; simpl in Hrun;
    [|simplify_eq; discriminate].
  destruct (bool_decide (User.role u = "organizer")) eqn:Hrole; simpl in Hrun;
    [|simplify_eq; discriminate].
  apply bool_decide_eq_true in Hrole.
  destruct (not_data_or data _) as [[|]|r0] eqn:Hmiss; simpl in Hrun;
    [simplify_eq; discriminate| |stops; simplify_eq; discriminate].
  apply not_data_or_false in Hmiss as (m & -> & Hall). simpl in Hrun.
  destruct (m !! "date") as [dv|] eqn:Hd; simpl in Hrun;
    [|simplify_eq; discriminate].
  destruct (parse_date dv) as [d|rd] eqn:Hpd; simpl in Hrun;
    [|simplify_eq; destruct (parse_date_stop _ _ Hpd); subst; discriminate].
  apply parse_date_ret in Hpd.
  unfold insert_event in Hrun.
  repeat match type of Hrun with
  | context [raised ?o] =>
      destruct o eqn:?; simpl in Hrun; [|simplify_eq; discriminate]
  | context [with_default ?b ?d ?v] =>
      let E := fresh "Hw" in
      destruct (with_default b d v) eqn:E; simpl in Hrun;
      [|apply with_default_stop in E; subst; simplify_eq; discriminate]
  | context [nullable ?b ?v] =>
      let E := fresh "Hn" in
      destruct (nullable b v) eqn:E; simpl in Hrun;
      [|apply nullable_stop in E; subst; simplify_eq; discriminate]
  end.
  simplify_eq.
  eexists m, u, _. repeat split; simpl; try reflexivity; try assumption.
  now rewrite Hd.
Qed.

Lemma create_event_bad_date ctx c m s u db :
  get_user c db = Some u → User.role u = "organizer" →
  truthy (default JNull (m !! "title")) = true →
  truthy (default JNull (m !! "description")) = true →
  truthy (default JNull (m !! "location")) = true →
  m !! "date" = Some (JStr s) → s ≠ "" →
  fromisoformat (py_replace "Z" "+00:00" s) = None →
  create_event ctx c (JObj m) db = (error "Invalid date format" 400, db).
Proof.
  intros Hu Hrole Ht Hde Hl Hd Hs Hparse.
  unfold create_event, run. rewrite Hu. simpl.
  rewrite bool_decide_true by assumption. simpl.
  rewrite not_data_or_obj, (dict_truthy m _ _ Hd). simpl.
  rewrite Ht, Hde, Hl, Hd. simpl.
  rewrite bool_decide_false by assumption. simpl.
  now rewrite Hparse.
Qed.

Lemma create_event_empty_date ctx c m u db :
  get_user c db = Some u → User.role u = "organizer" →
  m !! "date" = Some (JStr "") →
  create_event ctx c (JObj m) db = (error "Missing required fields" 400, db).
Proof.
  intros Hu Hrole Hd.
  unfold create_event, run. rewrite Hu. simpl.
  rewrite bool_decide_true by assumption. simpl.
  rewrite not_data_or_obj, (dict_truthy m _ _ Hd). simpl.
  rewrite Hd. simpl.
  now destruct (truthy (default JNull (m !! "title"))),
               (truthy (default JNull (m !! "description"))).
Qed.

Lemma update_event_bad_date c e m s ev db :
  get_event_row e db = Some ev → Event.organizer_id ev = c →
  m !! "date" = Some (JStr s) → s ≠ "" →
  fromisoformat (py_replace "Z" "+00:00" s) = None →
  update_event c e (JObj m) db = (error "Invalid date format" 400, db).
Proof.
  intros Hev Hc Hd Hs Hparse.
  unfold update_event, run. rewrite Hev. simpl.
  rewrite bool_decide_true by assumption. simpl.
  rewrite !supplied_obj. simpl. rewrite (given_date m s Hd Hs). simpl.
  now rewrite Hparse.
Qed.

(** C6: for a body whose date is the string [s].  When [s] is
    not empty, [s] with every Z replaced by +00:00 goes to [fromisoformat]:
    if that raises, POST /api/events (from an organizer, with title,
    description and location) and PUT /api/events/<id> (from the event's
    organizer) answer 400 with "Invalid date format" and leave the store as
    it was; if it returns a date, a request that succeeds stores that date.
    When [s] is empty the date counts as missing: the POST answers 400 with
    "Missing required fields", and a PUT that succeeds keeps the old date. *)
Theorem date_strings_are_checked ctx c e m s db :
  m !! "date" = Some (JStr s) →
  (s ≠ "" → fromisoformat (py_replace "Z" "+00:00" s) = None →
     (∀ u, get_user c db = Some u → User.role u = "organizer" →
           truthy (default JNull (m !! "title")) = true →
           truthy (default JNull (m !! "description")) = true →
           truthy (default JNull (m !! "location")) = true →
           create_event ctx c (JObj m) db = (error "Invalid date format" 400, db))
     ∧ (∀ ev, get_event_row e db = Some ev → Event.organizer_id ev = c →
           update_event c e (JObj m) db = (error "Invalid date format" 400, db)))
  ∧ (∀ d, s ≠ "" → fromisoformat (py_replace "Z" "+00:00" s) = Some d →
     (∀ r db', create_event ctx c (JObj m) db = (r, db') → status_of r = 201 →
           ∃ ev', events db' = (events db ++ [ev'])%list ∧ Event.date ev' = d)
     ∧ (∀ r db', update_event c e (JObj m) db = (r, db') → status_of r = 200 →
           ∃ ev', get_event_row e db' = Some ev' ∧ Event.date ev' = d))
  ∧ (s = "" →
     (∀ u, get_user c db = Some u → User.role u = "organizer" →
           create_event ctx c (JObj m) db = (error "Missing required fields" 400, db))
     ∧ (∀ r db', update_event c e (JObj m) db = (r, db') → status_of r = 200 →
           ∃ ev ev', get_event_row e db = Some ev ∧ get_event_row e db' = Some ev'
                     ∧ Event.date ev' = Event.date ev)).
Proof.
  intros Hd. split; [|split].
  - intros Hs Hparse. split.
    + intros u Hu Hrole Ht Hde Hl. now apply (create_event_bad_date ctx c m s u).
    + intros ev Hev Hc. now apply (update_event_bad_date c e m s ev).
  - intros d Hs Hparse. split.
    + intros r db' Hrun Hst.
      destruct (create_event_ok _ _ _ _ _ _ Hrun Hst)
        as (m' & u & ev' & [= <-] & _ & _ & Hev & _ & _ & _ & _ & _ & _ & Hdate).
      exists ev'. split; [exact Hev|].
      rewrite Hd in Hdate. simpl in Hdate. congruence.
    + intros r db' Hrun Hst.
      destruct (update_event_ok _ _ _ _ _ _ Hrun Hst)
        as (m' & ev & ev' & [= <-] & Hev & Hc & -> & Hid & _ & _ & _ & _ & Hdate & _).
      destruct (get_event_row_id _ _ _ Hev) as [Hide _].
      exists ev'. split; [apply (save_event_same e ev); congruence|].
      rewrite (given_date m s Hd Hs) in Hdate. simpl in Hdate. congruence.
  - intros ->. split.
    + intros u Hu Hrole. now apply (create_event_empty_date ctx c m u).
    + intros r db' Hrun Hst.
      destruct (update_event_ok _ _ _ _ _ _ Hrun Hst)
        as (m' & ev & ev' & [= <-] & Hev & Hc & -> & Hid & _ & _ & _ & _ & Hdate & _).
      destruct (get_event_row_id _ _ _ Hev) as [Hide _].
      exists ev, ev'. split; [exact Hev|].
      split; [apply (save_event_same e ev); congruence|].
      now rewrite (given_empty_date m Hd) in Hdate.
Qed.

End Dates.

(** ** Registration and login *)

Lemma truthy_str (s : string) : s ≠ "" → truthy (JStr s) = true.
Proof. intros Hs. simpl. now rewrite bool_decide_false. Qed.


Lemma get_user_new (u : User.t) (db : DB) :
  user_ids_issued db → User.id u = user_seq db →
  get_user (User.id u) (with_user u db) = Some u.
Proof.
  unfold user_ids_issued, get_user, with_user. simpl. intros Hall Hid.
  induction Hall as [|x l Hx Hl IH]; simpl.
  - now rewrite bool_decide_true.
  - rewrite bool_decide_false by lia. exact IH.
Qed.

Section Accounts.
Context {P : Platform}.




(** C8: a login with a non-empty email and password is answered 401 with
    "Invalid email or password" when no user has the email, and 401 with
    the same body when a user has it and the password does not match its
    hash: the two responses are equal, and neither changes the store. *)
Theorem login_failures_alike ctx1 ctx2 m e pw u db1 db2 :
  m !! "email" = Some (JStr e) → e ≠ "" →
  m !! "password" = Some (JStr pw) → pw ≠ "" →
  user_by_email e db1 = None →
  user_by_email e db2 = Some u →
  check_password_hash (User.password u) (JStr pw) = Some false →
  login ctx1 (JObj m) db1 = (error "Invalid email or password" 401, db1)
  ∧ login ctx2 (JObj m) db2 = (error "Invalid email or password" 401, db2)
  ∧ fst (login ctx1 (JObj m) db1) = fst (login ctx2 (JObj m) db2).
Proof.
  intros He Hes Hp Hps H1 H2 Hcheck.
  assert (L1 : login ctx1 (JObj m) db1 = (error "Invalid email or password" 401, db1)).
  { unfold login, run. rewrite not_data_or_obj, (dict_truthy m _ _ He). simpl.
    rewrite He, Hp. simpl. rewrite !bool_decide_false by assumption. simpl.
    rewrite bind_text_str. simpl. now rewrite H1. }
  assert (L2 : login ctx2 (JObj m) db2 = (error "Invalid email or password" 401, db2)).
  { unfold login, run. rewrite not_data_or_obj, (dict_truthy m _ _ He). simpl.
    rewrite He, Hp. simpl. rewrite !bool_decide_false by assumption. simpl.
    rewrite bind_text_str. simpl. rewrite H2. simpl. now rewrite Hcheck. }
  split; [exact L1|]. split; [exact L2|]. now rewrite L1, L2.
Qed.






End Accounts.

(** ** Further properties of the handlers *)

Section Further.
Context {P : Platform}.

(** Only the author of a comment deletes it: another caller is answered
    403 and the store stays as it was. *)
Lemma delete_comment_only_author c i db cm :
  get_comment_row i db = Some cm → Comment.user_id cm ≠ c →
  delete_comment c i db
  = (error "Only the comment author can delete this comment" 403, db).
Proof.
  intros Hcm Hne. unfold delete_comment, run. rewrite Hcm. simpl.
  now rewrite bool_decide_false.
Qed.

End Further.

(** * The effect of a request on the store *)

Ltac unfold_body :=
  unfold run, mbind, res_bind, mret, res_ret, raised, raise, get_or_404,
    insert_user, insert_event, insert_rsvp, insert_comment in *.

Ltac found_event :=
  match goal with
  | H : get_event_row _ _ = Some ?t |- _ =>
      let E := fresh in
      destruct (get_event_row_id _ _ _ H) as [E _]; rewrite <- E in *
  end.

Lemma get_comment_row_id (i : Z) (db : DB) (c : Comment.t) :
  get_comment_row i db = Some c → Comment.id c = i ∧ c ∈ comments db.
Proof.
  intros Hf. apply find_some in Hf as [Hin Hid].
  apply bool_decide_eq_true in Hid. split; [exact Hid | now apply list_elem_of_In].
Qed.

Lemma rsvp_of_key (u e : Z) (db : DB) (r : RSVP.t) :
  rsvp_of u e db = Some r → RSVP.user_id r = u ∧ RSVP.event_id r = e ∧ r ∈ rsvps db.
Proof.
  intros Hf. apply find_some in Hf as [Hin Hk].
  apply andb_prop in Hk as [Hu He].
  apply bool_decide_eq_true in Hu, He. repeat split; trivial.
  now apply list_elem_of_In.
Qed.

Section Effects.
Context {P : Platform}.

Lemma register_effect ctx data db : effect db (snd (register ctx data db)).
Proof.
  unfold register. unfold_res. case_body; try apply effect_none.
  all: apply (effect_user db (User.mk _ _ _ _ _ _ _)); simpl; trivial.
Qed.

Lemma create_event_effect ctx c data db : effect db (snd (create_event ctx c data db)).
Proof.
  unfold create_event. unfold_body. case_body; try apply effect_none.
  all: eapply (effect_event db (Event.mk _ _ _ _ _ _ _ _ _)); simpl; eauto.
  all: match goal with
       | H : negb (bool_decide _) = false |- _ =>
           apply negb_false_iff, bool_decide_eq_true in H; exact H
       end.
Qed.

Lemma update_event_effect c e data db : effect db (snd (update_event c e data db)).
Proof.
  unfold update_event. unfold_body. case_body; try apply effect_none.
  all: found_event.
  all: eapply (effect_save db _ (Event.mk _ _ _ _ _ _ _ _ _)); simpl; eauto.
Qed.

Lemma delete_event_effect c e db : effect db (snd (delete_event c e db)).
Proof.
  unfold delete_event, session_delete_event. unfold_body.
  destruct (get_event_row e db) as [ev|] eqn:Hev; simpl; [|apply effect_none].
  destruct (negb _); simpl; [apply effect_none|].
  found_event.
  destruct (event_rsvps (Event.id ev) db) eqn:Hr,
           (event_comments (Event.id ev) db) eqn:Hc; simpl;
    try apply effect_none.
  now apply effect_delete_event.
Qed.

Lemma create_rsvp_effect ctx u data db : effect db (snd (create_rsvp ctx u data db)).
Proof.
  unfold create_rsvp. unfold_body. case_body; try apply effect_none.
  all: eapply (effect_rsvp db (RSVP.mk _ _ _ _ _)); simpl; eauto.
  all: match goal with H : price_is_zero _ = _ |- _ => now rewrite H end.
Qed.

Lemma cancel_rsvp_effect u e db : effect db (snd (cancel_rsvp u e db)).
Proof.
  unfold cancel_rsvp. unfold_body.
  destruct (rsvp_of u e db) as [r|] eqn:Hr; simpl; [|apply effect_none].
  apply effect_cancel. destruct (rsvp_of_key _ _ _ _ Hr) as (-> & -> & _). exact Hr.
Qed.

Lemma create_comment_effect ctx u e data db :
  effect db (snd (create_comment ctx u e data db)).
Proof.
  unfold create_comment. unfold_body. case_body; try apply effect_none.
  all: now apply (effect_comment db (Comment.mk _ _ _ _ _)).
Qed.

Lemma delete_comment_effect u i db : effect db (snd (delete_comment u i db)).
Proof.
  unfold delete_comment. unfold_body.
  destruct (get_comment_row i db) as [c|] eqn:Hc; simpl; [|apply effect_none].
  destruct (negb _); simpl; [apply effect_none|].
  apply effect_delete_comment.
  destruct (get_comment_row_id _ _ _ Hc) as [-> _]. exact Hc.
Qed.

Lemma handle_effect ctx rq db : effect db (snd (handle ctx rq db)).
Proof.
  destruct rq; simpl.
  - apply register_effect.
  - apply create_event_effect.
  - apply update_event_effect.
  - apply delete_event_effect.
  - apply create_rsvp_effect.
  - apply cancel_rsvp_effect.
  - apply create_comment_effect.
  - apply delete_comment_effect.
Qed.

End Effects.

(** ** Invariants of the store *)

Lemma keys_ok_snoc {A} (id : A → Z) (seq : Z) (l : list A) (x : A) :
  keys_ok id seq l → id x = seq → keys_ok id (seq + 1) (l ++ [x]).
Proof.
  intros [Hnd Hlt] Hx. split.
  - apply NoDup_map_snoc; trivial.
    rewrite map_fmap. intros Hin. apply list_elem_of_fmap in Hin as (y & Hy & Hin).
    rewrite Forall_forall in Hlt. apply Hlt in Hin. lia.
  - apply Forall_app. split.
    + eapply Forall_impl; [exact Hlt|]. simpl. intros; lia.
    + repeat constructor. lia.
Qed.

Lemma keys_ok_filter {A} (id : A → Z) (seq : Z) (Q : A → Prop)
    `{∀ x, Decision (Q x)} (l : list A) :
  keys_ok id seq l → keys_ok id seq (filter Q l).
Proof.
  intros [Hnd Hlt]. split.
  - now apply NoDup_map_filter.
  - rewrite Forall_forall in *. intros x Hx. apply Hlt.
    now apply list_elem_of_filter in Hx as [_ Hx].
Qed.

Lemma keys_ok_save (seq : Z) (ev' : Event.t) (l : list Event.t) :
  keys_ok Event.id seq l →
  keys_ok Event.id seq
    (map (fun e => if bool_decide (Event.id e = Event.id ev') then ev' else e) l).
Proof.
  intros [Hnd Hlt].
  assert (Hids : map Event.id
            (map (fun e => if bool_decide (Event.id e = Event.id ev') then ev' else e) l)
          = map Event.id l).
  { rewrite map_map. apply map_ext. intros e. now case_bool_decide. }
  split.
  - now rewrite Hids.
  - clear Hnd Hids. induction Hlt as [|x l Hx Hl IH]; simpl; constructor; trivial.
    case_bool_decide as Hid; [rewrite <- Hid|]; exact Hx.
Qed.

Lemma effect_store_ok (db db' : DB) : effect db db' → store_ok db → store_ok db'.
Proof.
  intros Heff (Hu & He & Hr & Hc).
  destruct Heff; unfold store_ok; simpl; (split; [|split; [|split]]);
    first [ assumption
          | apply keys_ok_snoc; assumption
          | apply keys_ok_filter; assumption
          | apply keys_ok_save; assumption ].
Qed.

Lemma get_user_with_user (i : Z) (u u' : User.t) (db : DB) :
  get_user i db = Some u → get_user i (with_user u' db) = Some u.
Proof.
  unfold get_user, with_user. simpl.
  induction (users db) as [|x l IH]; simpl; [discriminate|].
  destruct (bool_decide (User.id x = i)); [trivial | exact IH].
Qed.

Lemma effect_events_have_organizers (db db' : DB) :
  effect db db' → events_have_organizers db → events_have_organizers db'.
Proof.
  unfold events_have_organizers.
  intros Heff Hall. destruct Heff; simpl; trivial.
  - eapply Forall_impl; [exact Hall|]. simpl.
    intros e (u' & Hu' & Hrole). exists u'. split; [|exact Hrole].
    now apply get_user_with_user.
  - apply Forall_app. split; [exact Hall|].
    repeat constructor. eauto.
  - rewrite Forall_forall in *. intros x Hx.
    apply list_elem_of_In, in_map_iff in Hx as (y & <- & Hy).
    apply list_elem_of_In in Hy.
    case_bool_decide; [|now apply Hall].
    match goal with H : get_event_row _ _ = Some _ |- _ =>
      apply get_event_row_id in H as [_ Hin] end.
    apply Hall in Hin.
    match goal with H : Event.organizer_id _ = Event.organizer_id _ |- _ =>
      rewrite H end.
    exact Hin.
  - rewrite Forall_forall in *. intros x Hx. apply Hall.
    now apply list_elem_of_filter in Hx as [_ Hx].
Qed.

Lemma effect_payment_known (db db' : DB) :
  effect db db' → payment_known db → payment_known db'.
Proof.
  unfold payment_known.
  intros Heff Hall. destruct Heff; simpl; trivial.
  - apply Forall_app. split; [exact Hall|]. constructor; [|constructor].
    match goal with H : RSVP.payment_status _ = _ |- _ => rewrite H end.
    destruct (price_is_zero _); auto.
  - rewrite Forall_forall in *. intros x Hx. apply Hall.
    now apply list_elem_of_filter in Hx as [_ Hx].
Qed.

(** A stored RSVP is never rewritten: after a request, each RSVP is a row
    that was there before, or the one row the request created. *)
Lemma effect_rsvp_rows (db db' : DB) (r : RSVP.t) :
  effect db db' → r ∈ rsvps db' →
  r ∈ rsvps db
  ∨ (RSVP.id r = rsvp_seq db
     ∧ ∃ ev, get_event_row (RSVP.event_id r) db = Some ev
             ∧ RSVP.payment_status r
               = if price_is_zero (Event.price ev) then "free" else "pending").
Proof.
  intros Heff Hin. destruct Heff; simpl in *; auto.
  - apply elem_of_app in Hin as [Hin|Hin]; [now left|].
    apply list_elem_of_singleton in Hin. subst. right. eauto.
  - left. now apply list_elem_of_filter in Hin as [_ Hin].
Qed.

Section Invariants.
Context {P : Platform}.

(** Every request keeps the primary keys of the four tables free of
    repeats and below the next value of their sequence, and so does every
    run of requests; the empty store is such a store. *)
Theorem primary_keys_stay_unique :
  (∀ ctx rq db, store_ok db → store_ok (snd (handle ctx rq db)))
  ∧ (∀ rqs db, store_ok db → store_ok (serve rqs db))
  ∧ (∀ rqs, store_ok (serve rqs empty_db)).
Proof.
  assert (Hstep : ∀ ctx rq db, store_ok db → store_ok (snd (handle ctx rq db))).
  { intros ctx rq db. apply effect_store_ok, handle_effect. }
  split; [exact Hstep|]. split.
  - now apply serve_preserves.
  - intros rqs. apply serve_preserves; trivial.
    unfold store_ok, keys_ok. simpl. repeat split; constructor.
Qed.

(** No request changes a stored RSVP: every RSVP after a request was
    stored before it with the same fields, or is the row the request
    created, whose payment_status is free or pending as the event's price
    was 0 or not.  So in every store reached from the empty one every
    payment_status is free or pending: none is ever paid. *)
Theorem rsvp_rows_never_change :
  (∀ ctx rq db r, r ∈ rsvps (snd (handle ctx rq db)) →
      r ∈ rsvps db
      ∨ (RSVP.id r = rsvp_seq db
         ∧ ∃ ev, get_event_row (RSVP.event_id r) db = Some ev
                 ∧ RSVP.payment_status r
                   = if price_is_zero (Event.price ev) then "free" else "pending"))
  ∧ (∀ rqs db, payment_known db → payment_known (serve rqs db))
  ∧ (∀ rqs r, r ∈ rsvps (serve rqs empty_db) → RSVP.payment_status r ≠ "paid").
Proof.
  assert (Hserve : ∀ rqs db, payment_known db → payment_known (serve rqs db)).
  { apply serve_preserves. intros ctx rq db.
    apply effect_payment_known, handle_effect. }
  split; [|split; [exact Hserve|]].
  - intros ctx rq db r. apply effect_rsvp_rows, handle_effect.
  - intros rqs r Hin.
    assert (Hk : payment_known (serve rqs empty_db)).
    { apply Hserve. constructor. }
    unfold payment_known in Hk. rewrite Forall_forall in Hk.
    apply Hk in Hin. destruct Hin as [-> | ->]; discriminate.
Qed.

(** Every request keeps each stored event with a stored user whose role is
    organizer as its organizer, and so does every run of requests: from the
    empty store on, no event is left without its organizer. *)
Theorem events_keep_their_organizer :
  (∀ ctx rq db, events_have_organizers db →
      events_have_organizers (snd (handle ctx rq db)))
  ∧ (∀ rqs db, events_have_organizers db → events_have_organizers (serve rqs db))
  ∧ (∀ rqs, events_have_organizers (serve rqs empty_db)).
Proof.
  assert (Hstep : ∀ ctx rq db, events_have_organizers db →
                               events_have_organizers (snd (handle ctx rq db))).
  { intros ctx rq db. apply effect_events_have_organizers, handle_effect. }
  split; [exact Hstep|]. split.
  - now apply serve_preserves.
  - intros rqs. apply serve_preserves; trivial. constructor.
Qed.

End Invariants.

(** ** RSVPs: creating, cancelling, asking *)

Lemma NoDup_map_inj_on {A B} (f : A → B) (l : list A) (x y : A) :
  NoDup (map f l) → x ∈ l → y ∈ l → f x = f y → x = y.
Proof.
  induction l as [|a l IH]; simpl; intros Hnd Hx Hy Hf.
  - now apply elem_of_nil in Hx.
  - inversion Hnd as [|? ? Ha Hl]; subst.
    apply elem_of_cons in Hx as [->|Hx], Hy as [->|Hy]; trivial.
    + exfalso. apply Ha. rewrite Hf, map_fmap. now apply list_elem_of_fmap_2.
    + exfalso. apply Ha. rewrite <- Hf, map_fmap. now apply list_elem_of_fmap_2.
    + now apply IH.
Qed.

Lemma find_filter_same {A} (p : A → bool) (Q : A → Prop) `{∀ x, Decision (Q x)}
    (l : list A) :
  (∀ x, x ∈ l → p x = true → Q x) → find p (filter Q l) = find p l.
Proof.
  induction l as [|a l IH]; simpl; intros Hq; [reflexivity|].
  rewrite filter_cons. destruct (decide (Q a)) as [Ha|Ha]; simpl.
  - destruct (p a); [reflexivity|]. apply IH. intros x Hx. apply Hq. now right.
  - destruct (p a) eqn:Hp.
    + exfalso. apply Ha, Hq; [left | exact Hp].
    + apply IH. intros x Hx. apply Hq. now right.
Qed.

Lemma find_filter_none {A} (p : A → bool) (Q : A → Prop) `{∀ x, Decision (Q x)}
    (l : list A) :
  (∀ x, x ∈ l → p x = true → ¬ Q x) → find p (filter Q l) = None.
Proof.
  induction l as [|a l IH]; simpl; intros Hq; [reflexivity|].
  rewrite filter_cons. destruct (decide (Q a)) as [Ha|Ha]; simpl.
  - destruct (p a) eqn:Hp.
    + exfalso. eapply Hq; [left | exact Hp | exact Ha].
    + apply IH. intros x Hx. apply Hq. now right.
  - apply IH. intros x Hx. apply Hq. now right.
Qed.

Lemma find_snoc_new {A} (p : A → bool) (l : list A) (x : A) :
  find p l = None → p x = true → find p (l ++ [x])%list = Some x.
Proof.
  induction l as [|a l IH]; simpl; intros Hn Hx.
  - now rewrite Hx.
  - destruct (p a); [discriminate | now apply IH].
Qed.

Lemma find_snoc_other {A} (p : A → bool) (l : list A) (x : A) :
  p x = false → find p (l ++ [x])%list = find p l.
Proof.
  induction l as [|a l IH]; simpl; intros Hx.
  - now rewrite Hx.
  - destruct (p a); [reflexivity | now apply IH].
Qed.

Lemma filter_snoc_fresh {A} (id : A → Z) (seq : Z) (l : list A) (x : A) :
  Forall (fun y => (id y < seq)%Z) l → id x = seq →
  filter (fun y => id y ≠ seq) (l ++ [x])%list = l.
Proof.
  intros Hlt Hx. rewrite filter_app, filter_cons, decide_False by tauto.
  rewrite filter_nil, app_nil_r.
  induction Hlt as [|y l Hy Hl IH]; [reflexivity|].
  rewrite filter_cons, decide_True by lia. now rewrite IH.
Qed.

Section RsvpLife.
Context {P : Platform}.

Lemma rsvp_key_bool (u e : Z) (r : RSVP.t) :
  (bool_decide (RSVP.user_id r = u) && bool_decide (RSVP.event_id r = e)) = true
  ↔ RSVP.user_id r = u ∧ RSVP.event_id r = e.
Proof.
  rewrite andb_true_iff, !bool_decide_eq_true. reflexivity.
Qed.

(** DELETE /api/rsvp/<event_id>: with no RSVP of the caller for the event
    the answer is 404 "RSVP not found" and the store is as it was; with
    one, in a store with unique keys and at most one RSVP per pair, the
    answer is 200, the caller has no RSVP for the event any more, and
    the RSVP of every other (user, event) pair, the users, the events and
    the comments are as they were. *)
Theorem cancel_rsvp_removes_own u e db :
  (rsvp_of u e db = None →
     cancel_rsvp u e db = (error "RSVP not found" 404, db))
  ∧ (∀ r, rsvp_of u e db = Some r → store_ok db → rsvp_unique db →
       ∃ db', cancel_rsvp u e db = (message "RSVP cancelled successfully" 200, db')
              ∧ rsvp_of u e db' = None
              ∧ (∀ u' e', (u', e') ≠ (u, e) → rsvp_of u' e' db' = rsvp_of u' e' db)
              ∧ users db' = users db ∧ events db' = events db
              ∧ comments db' = comments db).
Proof.
  split.
  - intros Hr. unfold cancel_rsvp, run. now rewrite Hr.
  - intros r Hr (_ & _ & [Hids _] & _) Huniq.
    destruct (rsvp_of_key _ _ _ _ Hr) as (Hu & He & Hin).
    exists (session_delete_rsvp r db). split; [|split; [|split]].
    + unfold cancel_rsvp, run. now rewrite Hr.
    + unfold rsvp_of, session_delete_rsvp. simpl.
      apply find_filter_none. intros x Hx Hk Hid.
      apply rsvp_key_bool in Hk as [Hxu Hxe]. apply Hid.
      f_equal. apply (NoDup_map_inj_on rsvp_key (rsvps db)); trivial.
      unfold rsvp_key. congruence.
    + intros u' e' Hne. unfold rsvp_of, session_delete_rsvp. simpl.
      apply find_filter_same. intros x Hx Hk Hid.
      apply rsvp_key_bool in Hk as [Hxu Hxe]. apply Hne.
      assert (x = r) by (apply (NoDup_map_inj_on RSVP.id (rsvps db)); trivial).
      subst x. congruence.
    + repeat split.
Qed.

(** An RSVP that was created can be cancelled, and the RSVP table is then
    what it was before the two requests, with one id of the sequence
    spent. *)
Theorem rsvp_create_then_cancel ctx u data db r db' :
  create_rsvp ctx u data db = (r, db') → status_of r = 201 → store_ok db →
  ∃ e, cancel_rsvp u e db'
       = (message "RSVP cancelled successfully" 200,
          mkDB (users db) (events db) (rsvps db) (comments db)
               (user_seq db) (event_seq db) (rsvp_seq db + 1) (comment_seq db)).
Proof.
  intros Hrun Hst (_ & _ & [_ Hlt] & _).
  destruct (create_rsvp_ok _ _ _ _ _ _ Hrun Hst)
    as (m & v & e & ev & _ & _ & _ & _ & Hev & Hnone & _ & ->).
  exists e. unfold cancel_rsvp, run, rsvp_of. simpl.
  rewrite (find_snoc_new _ _ _ Hnone)
    by (simpl; now rewrite !bool_decide_true). simpl.
  unfold session_delete_rsvp. simpl.
  f_equal. f_equal.
  now apply (filter_snoc_fresh RSVP.id (rsvp_seq db)).
Qed.

(** The RSVP status of the caller for the event that the body of a POST
    /api/rsvp names: GET /api/rsvp/<event_id> answers not_rsvpd before the
    POST that is answered 201 and rsvpd after it, with the payment status
    free when the event's price is a number equal to 0 and pending when it
    is not. *)
Theorem rsvp_status_follows_create ctx u data db r db' :
  create_rsvp ctx u data db = (r, db') → status_of r = 201 →
  ∃ m v e ev,
    data = JObj m
    ∧ m !! "event_id" = Some v ∧ bind_int v = Some e
    ∧ get_event_row e db = Some ev
    ∧ get_rsvp_status u e db = (Json (dict [("rsvp_status", JStr "not_rsvpd")]) 200, db)
    ∧ get_rsvp_status u e db'
      = (Json (dict [("rsvp_status", JStr "rsvpd");
                     ("payment_status",
                      JStr match Event.price ev with
                           | Some p => if PrimFloat.eqb p 0%float
                                       then "free" else "pending"
                           | None => "pending"
                           end)]) 200, db').
Proof.
  intros Hrun Hst.
  destruct (create_rsvp_ok _ _ _ _ _ _ Hrun Hst)
    as (m & v & e & ev & -> & Hm & _ & Hb & Hev & Hnone & _ & ->).
  exists m, v, e, ev.
  split; [reflexivity|]. split; [exact Hm|]. split; [exact Hb|].
  split; [exact Hev|]. split.
  - unfold get_rsvp_status. now rewrite Hnone.
  - unfold get_rsvp_status, rsvp_of. simpl.
    rewrite (find_snoc_new _ _ _ Hnone)
      by (simpl; now rewrite !bool_decide_true).
    unfold price_is_zero. simpl. now destruct (Event.price ev).
Qed.

Lemma event_json_rsvp_count db ev :
  json_field (event_json db ev) "rsvp_count"
  = Some (JInt (Z.of_nat (length (event_rsvps (Event.id ev) db)))).
Proof. reflexivity. Qed.

(** A POST /api/rsvp that is answered 201 adds one to the RSVPs of the
    event that its body names: GET /api/events/<event_id> for that event
    then shows an rsvp_count that is one more than the number of its RSVPs
    before, and the RSVPs of every other event are as they were. *)
Theorem rsvp_count_follows_create ctx u data db r db' :
  create_rsvp ctx u data db = (r, db') → status_of r = 201 →
  ∃ m v e ev body,
    data = JObj m
    ∧ m !! "event_id" = Some v ∧ bind_int v = Some e
    ∧ get_event_row e db = Some ev
    ∧ length (event_rsvps e db') = S (length (event_rsvps e db))
    ∧ get_event e db' = (Json body 200, db')
    ∧ json_field body "rsvp_count"
      = Some (JInt (Z.of_nat (length (event_rsvps e db)) + 1))
    ∧ ∀ e', e' ≠ e → event_rsvps e' db' = event_rsvps e' db.
Proof.
  intros Hrun Hst.
  destruct (create_rsvp_ok _ _ _ _ _ _ Hrun Hst)
    as (m & v & e & ev & -> & Hm & _ & Hb & Hev & Hnone & _ & ->).
  destruct (get_event_row_id _ _ _ Hev) as [Hid _].
  assert (Hlen : ∀ ctx' st,
    length (filter (fun x => RSVP.event_id x = e)
                   (rsvps db ++ [RSVP.mk (rsvp_seq db) u e st ctx'])%list)
    = S (length (event_rsvps e db))).
  { intros ctx' st. unfold event_rsvps.
    rewrite filter_app, filter_cons, decide_True by reflexivity.
    rewrite length_app. simpl. lia. }
  exists m, v, e, ev. eexists.
  split; [reflexivity|]. split; [exact Hm|]. split; [exact Hb|].
  split; [exact Hev|]. split; [|split; [|split]].
  - unfold event_rsvps at 1. simpl. apply Hlen.
  - unfold get_event, run, get_event_row in Hev |- *. simpl. rewrite Hev.
    reflexivity.
  - rewrite event_json_rsvp_count, Hid. unfold event_rsvps at 1. simpl.
    rewrite Hlen. do 2 f_equal. lia.
  - intros e' Hne. unfold event_rsvps. simpl.
    rewrite filter_app, filter_cons, decide_False by (simpl; congruence).
    now rewrite filter_nil, app_nil_r.
Qed.

End RsvpLife.

(** ** Errors and edges of the routes *)

Lemma with_default_ret {A} (bind : json → option A) (dflt : A) (m : gmap string json)
    (k : string) (absent : json) (new : A) :
  with_default bind dflt (default absent (m !! k)) = Ret new →
  with_default bind dflt absent = Ret dflt →
  defaulted bind dflt (m !! k) new.
Proof.
  unfold with_default, defaulted, raised, raise.
  destruct (m !! k) as [v|]; simpl.
  - destruct v; try destruct (bind _); intros; simplify_eq; reflexivity.
  - intros H1 H2. congruence.
Qed.


Section Edges.
Context {P : Platform}.

(** POST /api/events checks the caller before the body: a caller who is no
    stored user makes the handler raise (500), a user whose role is not
    organizer is answered 403, and an organizer whose body lacks a truthy
    title, description, date or location is answered 400 "Missing required
    fields"; the store stays as it was in all three cases. *)
Theorem create_event_guards ctx c data db :
  (get_user c db = None → create_event ctx c data db = (Abort 500, db))
  ∧ (∀ u, get_user c db = Some u → User.role u ≠ "organizer" →
       create_event ctx c data db
       = (error "Only organizers can create events" 403, db))
  ∧ (∀ u m k, get_user c db = Some u → User.role u = "organizer" →
       data = JObj m →
       k ∈ ["title"; "description"; "date"; "location"] →
       truthy (default JNull (m !! k)) = false →
       create_event ctx c data db = (error "Missing required fields" 400, db)).
Proof.
  split; [|split].
  - intros Hu. unfold create_event, run. now rewrite Hu.
  - intros u Hu Hrole. unfold create_event, run. rewrite Hu. simpl.
    now rewrite bool_decide_false.
  - intros u m k Hu Hrole -> Hk Hf. unfold create_event, run. rewrite Hu. simpl.
    rewrite bool_decide_true by assumption. simpl.
    rewrite not_data_or_obj.
    assert (Hex : existsb (fun k => negb (truthy (default JNull (m !! k))))
                    ["title"; "description"; "date"; "location"] = true).
    { apply existsb_exists. exists k. split; [now apply list_elem_of_In|].
      now rewrite Hf. }
    rewrite Hex, orb_true_r. reflexivity.
Qed.


(** A request for a row that is not stored is answered 404 and changes
    nothing: an event id for PUT, DELETE and GET on /api/events/<id>, for
    the organizer's RSVP list and for POST /api/rsvp, a comment id for
    DELETE /api/comments/<id>, the caller's id for GET /api/profile. *)
Theorem missing_rows_answer_404 :
  (∀ c e data db, get_event_row e db = None →
      update_event c e data db = (Abort 404, db)
      ∧ delete_event c e db = (Abort 404, db)
      ∧ get_event e db = (Abort 404, db)
      ∧ get_event_rsvps c e db = (Abort 404, db))
  ∧ (∀ ctx u m v e db,
      m !! "event_id" = Some v → truthy v = true → bind_int v = Some e →
      get_event_row e db = None →
      create_rsvp ctx u (JObj m) db = (Abort 404, db))
  ∧ (∀ c i db, get_comment_row i db = None →
      delete_comment c i db = (Abort 404, db))
  ∧ (∀ c db, get_user c db = None →
      get_profile c db = (error "User not found" 404, db)).
Proof.
  split; [|split; [|split]].
  - intros c e data db He.
    unfold update_event, delete_event, get_event, get_event_rsvps, run.
    now rewrite He.
  - intros ctx u m v e db Hm Hv Hb He.
    unfold create_rsvp, run. rewrite not_data_or_obj, (dict_truthy m _ _ Hm). simpl.
    rewrite Hm. simpl. rewrite Hv. simpl. rewrite Hb. simpl. now rewrite He.
  - intros c i db Hc. unfold delete_comment, run. now rewrite Hc.
  - intros c db Hu. unfold get_profile, run. now rewrite Hu.
Qed.

Lemma not_data_or_no_object data k ks :
  is_object data = false →
  not_data_or data (k :: ks) = if truthy data then raise else Ret true.
Proof.
  unfold not_data_or. destruct data; try discriminate; intros _; simpl;
    now destruct (negb _) || reflexivity.
Qed.

(** A body that is JSON but no object.  A falsy one (null, false, 0, the
    empty string or list) counts as missing fields: the four POST routes
    that read a body first answer 400.  A truthy one has no [get]: they
    raise (500).  PUT /api/events/<id> does not test the body, so any body
    that is no object makes it raise once the caller is known to be the
    organizer.  The store is as it was every time. *)
Theorem bodies_that_are_no_object ctx c e data db :
  is_object data = false →
  (truthy data = false →
     register ctx data db = (error "Missing required fields" 400, db)
     ∧ login ctx data db = (error "Missing email or password" 400, db)
     ∧ create_rsvp ctx c data db = (error "Event ID is required" 400, db)
     ∧ create_comment ctx c e data db
       = (error "Comment content is required" 400, db))
  ∧ (truthy data = true →
     register ctx data db = (Abort 500, db)
     ∧ login ctx data db = (Abort 500, db)
     ∧ create_rsvp ctx c data db = (Abort 500, db)
     ∧ create_comment ctx c e data db = (Abort 500, db))
  ∧ (∀ ev, get_event_row e db = Some ev → Event.organizer_id ev = c →
     update_event c e data db = (Abort 500, db)).
Proof.
  intros Hobj. split; [|split].
  - intros Hf. unfold register, login, create_rsvp, create_comment, run.
    rewrite !not_data_or_no_object by assumption. rewrite Hf. simpl. auto.
  - intros Ht. unfold register, login, create_rsvp, create_comment, run.
    rewrite !not_data_or_no_object by assumption. rewrite Ht. simpl. auto.
  - intros ev Hev Hc. unfold update_event, run. rewrite Hev. simpl.
    rewrite bool_decide_true by assumption. simpl.
    destruct data; try discriminate; reflexivity.
Qed.

End Edges.

(** ** Patching twice, and patching with nothing *)

Lemma assigned_patched {A} (bind : json → option A) (old new : A) (v : option json) :
  patched bind v old new → assigned bind old v = Ret new.
Proof.
  unfold assigned, patched, raised. destruct v as [j|]; [now intros ->|].
  now intros ->.
Qed.

Lemma save_event_twice (ev' : Event.t) (db : DB) :
  save_event ev' (save_event ev' db) = save_event ev' db.
Proof.
  unfold save_event. simpl. f_equal. rewrite map_map. apply map_ext.
  intros x. destruct (bool_decide (Event.id x = Event.id ev')) eqn:Hx.
  - now rewrite bool_decide_true.
  - now rewrite Hx.
Qed.

Lemma save_event_stored (ev : Event.t) (db : DB) :
  NoDup (map Event.id (events db)) → ev ∈ events db → save_event ev db = db.
Proof.
  intros Hnd Hin. unfold save_event. destruct db as [us es rs cs ? ? ? ?].
  simpl in *. f_equal.
  rewrite <- (map_id es) at 2. apply map_ext_in.
  intros x Hx. case_bool_decide as Hid; [|reflexivity].
  symmetry. apply (NoDup_map_inj_on Event.id es); trivial.
  now apply list_elem_of_In.
Qed.

Section PatchAgain.
Context {P : Platform}.

Lemma parse_date_of v d : date_of v = Some d → parse_date v = Ret d.
Proof.
  unfold parse_date, date_of. destruct v; try discriminate. now intros ->.
Qed.

(** The store an organizer's PUT leaves, given what each field becomes. *)
Lemma update_event_run c e m db ev title description date location price banner :
  get_event_row e db = Some ev → Event.organizer_id ev = c →
  patched (column 200) (given m "title") (Event.title ev) title →
  patched bind_text (given m "description") (Event.description ev) description →
  patched date_of (given m "date") (Event.date ev) date →
  patched (column 200) (given m "location") (Event.location ev) location →
  patched (fun j => Some <$> bind_float j) (given_not_none m "price")
          (Event.price ev) price →
  patched (fun j => Some <$> column 255 j) (given m "banner") (Event.banner ev) banner →
  update_event c e (JObj m) db
  = (message "Event updated successfully" 200,
     save_event (Event.mk (Event.id ev) title description date location price banner
                          (Event.organizer_id ev) (Event.created_at ev)) db).
Proof.
  intros Hev Hc Ht Hs Hd Hl Hp Hb.
  unfold update_event, run. rewrite Hev. simpl.
  rewrite bool_decide_true by assumption. simpl.
  rewrite !supplied_obj, supplied_not_none_obj. simpl.
  assert (Hdate : match given m "date" with
                  | Some v => parse_date v
                  | None => Ret (Event.date ev)
                  end = Ret date).
  { unfold patched in Hd. destruct (given m "date").
    - now apply parse_date_of.
    - now rewrite Hd. }
  rewrite Hdate. simpl.
  rewrite (assigned_patched _ _ _ _ Ht). simpl.
  rewrite (assigned_patched _ _ _ _ Hs). simpl.
  rewrite (assigned_patched _ _ _ _ Hl). simpl.
  rewrite (assigned_patched _ _ _ _ Hp). simpl.
  rewrite (assigned_patched _ _ _ _ Hb). reflexivity.
Qed.

Lemma patched_again {A} (bind : json → option A) (v : option json) (old new : A) :
  patched bind v old new → patched bind v new new.
Proof. unfold patched. now destruct v. Qed.

(** PUT /api/events/<id> is idempotent: the request that was answered 200,
    sent again to the store it left, is answered the same and leaves that
    store as it is. *)
Theorem update_event_twice c e data db r db' :
  update_event c e data db = (r, db') → status_of r = 200 →
  update_event c e data db' = (r, db').
Proof.
  intros Hrun Hst.
  destruct (update_event_columns _ _ _ _ _ _ Hrun Hst)
    as (m & ev & ev' & -> & Hev & Hc & Hdb & Hid & Ho & Hcr
        & Ht & Hs & Hd & Hl & Hp & Hb).
  assert (Hr : r = message "Event updated successfully" 200).
  { rewrite (update_event_run c e m db ev _ _ _ _ _ _ Hev Hc Ht Hs Hd Hl Hp Hb)
      in Hrun. congruence. }
  subst db'.
  destruct (get_event_row_id _ _ _ Hev) as [Hide _].
  assert (Hev' : get_event_row e (save_event ev' db) = Some ev').
  { apply (save_event_same e ev); congruence. }
  rewrite (update_event_run c e m _ ev' (Event.title ev') (Event.description ev')
             (Event.date ev') (Event.location ev') (Event.price ev')
             (Event.banner ev') Hev').
  - subst r. f_equal. destruct ev'. simpl. apply save_event_twice.
  - congruence.
  - exact (patched_again _ _ _ _ Ht).
  - exact (patched_again _ _ _ _ Hs).
  - exact (patched_again _ _ _ _ Hd).
  - exact (patched_again _ _ _ _ Hl).
  - exact (patched_again _ _ _ _ Hp).
  - exact (patched_again _ _ _ _ Hb).
Qed.

(** A PUT by the organizer whose body is an object with no value to apply
    (the empty object, or fields that are empty or null) is answered 200
    and, in a store with unique keys, leaves the store as it was. *)
Theorem update_event_with_nothing c e m db ev :
  get_event_row e db = Some ev → Event.organizer_id ev = c → store_ok db →
  given m "title" = None → given m "description" = None →
  given m "date" = None → given m "location" = None →
  given_not_none m "price" = None → given m "banner" = None →
  update_event c e (JObj m) db = (message "Event updated successfully" 200, db).
Proof.
  intros Hev Hc (_ & [Hnd _] & _) Ht Hs Hd Hl Hp Hb.
  rewrite (update_event_run c e m db ev (Event.title ev) (Event.description ev)
             (Event.date ev) (Event.location ev) (Event.price ev)
             (Event.banner ev) Hev Hc);
    try (match goal with H : ?g = None |- patched _ ?g _ _ => now rewrite H end).
  f_equal. destruct (get_event_row_id _ _ _ Hev) as [_ Hin].
  destruct ev. simpl. now apply save_event_stored.
Qed.

End PatchAgain.

(** ** Comments *)

Lemma find_by_id {A} (id : A → Z) (l : list A) (x : A) :
  NoDup (map id l) → x ∈ l → find (fun y => bool_decide (id y = id x)) l = Some x.
Proof.
  intros Hnd Hin. destruct (find _ l) as [y|] eqn:Hf.
  - apply find_some in Hf as [Hy Hid]. apply bool_decide_eq_true in Hid.
    f_equal. apply (NoDup_map_inj_on id l); trivial. now apply list_elem_of_In.
  - exfalso. apply list_elem_of_In in Hin.
    apply (find_none _ _ Hf) in Hin. now apply bool_decide_eq_false in Hin.
Qed.

Section Comments.
Context {P : Platform}.

(** POST /api/events/<id>/comments: a body without a truthy content is
    answered 400; an answer 201 means one more comment, with the next id
    of the sequence, the caller as author, the event of the route, the
    body's content as the driver binds it and the request's time, and the
    comment list of that event then shows it. *)
Theorem create_comment_stores_comment ctx u e m db :
  (truthy (default JNull (m !! "content")) = false →
     create_comment ctx u e (JObj m) db
     = (error "Comment content is required" 400, db))
  ∧ (∀ r db', create_comment ctx u e (JObj m) db = (r, db') → status_of r = 201 →
       ∃ content rows,
         bind_text (default JNull (m !! "content")) = Some content
         ∧ db' = mkDB (users db) (events db) (rsvps db)
                   (comments db ++ [Comment.mk (comment_seq db) u e content (utcnow ctx)])
                   (user_seq db) (event_seq db) (rsvp_seq db) (comment_seq db + 1)
         ∧ get_comments e db' = (Json (JArr (map (comment_json db') rows)) 200, db')
         ∧ Comment.mk (comment_seq db) u e content (utcnow ctx) ∈ rows).
Proof.
  split.
  - intros Hf. unfold create_comment, run. rewrite not_data_or_obj. simpl.
    rewrite Hf. simpl. now rewrite orb_true_r.
  - intros r db'. unfold create_comment, run, insert_comment.
    rewrite not_data_or_obj. simpl.
    destruct (_ || _); simpl; [intros; simplify_eq; discriminate|].
    destruct (m !! "content") as [v|] eqn:Hm; simpl;
      [|intros; simplify_eq; discriminate].
    destruct (bind_text v) as [content|] eqn:Hb; simpl;
      [|intros; simplify_eq; discriminate].
    intros Hrun Hst. simplify_eq.
    eexists content, _. split; [reflexivity|]. split; [reflexivity|].
    split; [reflexivity|].
    destruct (order_by_timestamp_desc
                (event_comments e
                   (mkDB (users db) (events db) (rsvps db)
                      (comments db ++ [Comment.mk (comment_seq db) u e content (utcnow ctx)])
                      (user_seq db) (event_seq db) (rsvp_seq db) (comment_seq db + 1))))
      as [_ Hperm].
    rewrite Hperm. unfold event_comments. simpl.
    apply list_elem_of_filter. split; [reflexivity|].
    apply elem_of_app. right. now left.
Qed.

(** A comment that was posted can be deleted by its author, and the
    comment table is then what it was before the two requests, with one id
    of the sequence spent. *)
Theorem comment_create_then_delete ctx u e data db r db' :
  create_comment ctx u e data db = (r, db') → status_of r = 201 → store_ok db →
  delete_comment u (comment_seq db) db'
  = (message "Comment deleted successfully" 200,
     mkDB (users db) (events db) (rsvps db) (comments db)
          (user_seq db) (event_seq db) (rsvp_seq db) (comment_seq db + 1)).
Proof.
  intros Hrun Hst (_ & _ & _ & [_ Hlt]).
  revert Hrun Hst. unfold create_comment. unfold_body.
  case_body; intros; simplify_eq; stops; try discriminate.
  unfold delete_comment, run, get_comment_row. simpl.
  rewrite find_snoc_new; simpl.
  - rewrite bool_decide_true by reflexivity. simpl.
    unfold session_delete_comment. simpl. f_equal. f_equal.
    now apply (filter_snoc_fresh Comment.id (comment_seq db)).
  - destruct (find _ (comments db)) as [c|] eqn:Hf; [|reflexivity].
    apply find_some in Hf as [Hin Hid]. apply bool_decide_eq_true in Hid.
    rewrite Forall_forall in Hlt. apply list_elem_of_In, Hlt in Hin. lia.
  - now rewrite bool_decide_true.
Qed.

(** DELETE /api/comments/<id> by the author: the answer is 200, no comment
    has that id any more, and every comment with another id, the users,
    the events and the RSVPs are as they were. *)
Theorem delete_comment_removes_it c i db cm :
  get_comment_row i db = Some cm → Comment.user_id cm = c →
  ∃ db', delete_comment c i db = (message "Comment deleted successfully" 200, db')
         ∧ get_comment_row i db' = None
         ∧ (∀ j, j ≠ i → get_comment_row j db' = get_comment_row j db)
         ∧ users db' = users db ∧ events db' = events db ∧ rsvps db' = rsvps db.
Proof.
  intros Hcm Hc.
  destruct (get_comment_row_id _ _ _ Hcm) as [Hid Hin].
  exists (session_delete_comment cm db). split; [|split; [|split]].
  - unfold delete_comment, run. rewrite Hcm. simpl.
    now rewrite bool_decide_true.
  - unfold get_comment_row, session_delete_comment. simpl.
    apply find_filter_none. intros x Hx Hk Hne.
    apply bool_decide_eq_true in Hk. congruence.
  - intros j Hj. unfold get_comment_row, session_delete_comment. simpl.
    apply find_filter_same. intros x Hx Hk Heq.
    apply bool_decide_eq_true in Hk. congruence.
  - repeat split.
Qed.

End Comments.

(** ** Listings and single rows *)

Section Views.
Context {P : Platform}.

(** In a store with unique keys every stored event is in the listing of
    GET /api/events, and GET /api/events/<id> for its id answers 200 with
    the entry the listing has for it. *)
Theorem event_page_matches_listing db :
  store_ok db →
  ∃ rows,
    get_events db = (Json (JArr (map (event_json db) rows)) 200, db)
    ∧ ∀ ev, ev ∈ events db →
        ev ∈ rows ∧ get_event (Event.id ev) db = (Json (event_json db ev) 200, db).
Proof.
  intros (_ & [Hnd _] & _).
  exists (order_by date_asc (events db)). split; [reflexivity|].
  intros ev Hin. split.
  - destruct (order_by_date_asc (events db)) as [_ Hperm]. now rewrite Hperm.
  - unfold get_event, run, get_event_row.
    now rewrite (find_by_id Event.id (events db) ev Hnd Hin).
Qed.

(** GET /api/organizer/events/<id>/rsvps: a caller who is not the event's
    organizer is answered 403; the organizer gets one entry per RSVP of
    the event, as many as the rsvp_count that GET /api/events/<id> shows. *)
Theorem rsvp_roster e db ev :
  get_event_row e db = Some ev →
  (∀ c, Event.organizer_id ev ≠ c →
     get_event_rsvps c e db
     = (error "Only the organizer can view RSVPs for this event" 403, db))
  ∧ ∃ rows,
      get_event_rsvps (Event.organizer_id ev) e db
      = (Json (JArr (map (rsvp_json db) rows)) 200, db)
      ∧ (∀ r, r ∈ rows ↔ r ∈ rsvps db ∧ RSVP.event_id r = e)
      ∧ ∃ body, get_event e db = (Json body 200, db)
                ∧ json_field body "rsvp_count"
                  = Some (JInt (Z.of_nat (length (map (rsvp_json db) rows)))).
Proof.
  intros Hev. destruct (get_event_row_id _ _ _ Hev) as [Hid _]. split.
  - intros c Hne. unfold get_event_rsvps, run. rewrite Hev. simpl.
    now rewrite bool_decide_false.
  - exists (event_rsvps e db). split; [|split].
    + unfold get_event_rsvps, run. rewrite Hev. simpl.
      now rewrite bool_decide_true.
    + intros r. unfold event_rsvps. rewrite list_elem_of_filter. tauto.
    + exists (event_json db ev). split.
      * unfold get_event, run. now rewrite Hev.
      * rewrite length_map. subst e. unfold event_json, dict, json_field.
        simpl. reflexivity.
Qed.

(** GET /api/organizer/events: a caller who is no stored user makes the
    handler raise (500), a user whose role is not organizer is answered
    403, and an organizer gets the events whose organizer_id is the
    caller's id, and only those, in ascending order of their date. *)
Theorem organizer_listing c db :
  (get_user c db = None → get_organizer_events c db = (Abort 500, db))
  ∧ (∀ u, get_user c db = Some u → User.role u ≠ "organizer" →
       get_organizer_events c db
       = (error "Only organizers can access this endpoint" 403, db))
  ∧ (∀ u, get_user c db = Some u → User.role u = "organizer" →
       ∃ rows,
         get_organizer_events c db
         = (Json (JArr (map (own_event_json db) rows)) 200, db)
         ∧ Permutation rows (filter (fun e => Event.organizer_id e = c) (events db))
         ∧ StronglySorted date_le rows).
Proof.
  split; [|split].
  - intros Hu. unfold get_organizer_events, run. now rewrite Hu.
  - intros u Hu Hrole. unfold get_organizer_events, run. rewrite Hu. simpl.
    now rewrite bool_decide_false.
  - intros u Hu Hrole.
    exists (order_by date_asc (filter (fun e => Event.organizer_id e = c) (events db))).
    destruct (order_by_date_asc
                (filter (fun e => Event.organizer_id e = c) (events db))) as [Hs Hp].
    split; [|split; trivial].
    unfold get_organizer_events, run. rewrite Hu. simpl.
    now rewrite bool_decide_true.
Qed.

(** The routes that only read leave the store as it is, whatever they
    answer: login, profile, the listings, the single event, the RSVP
    status and the organizer's views. *)
Theorem reads_change_nothing ctx c e data db :
  snd (login ctx data db) = db
  ∧ snd (get_profile c db) = db
  ∧ snd (get_events db) = db
  ∧ snd (get_event e db) = db
  ∧ snd (get_rsvp_status c e db) = db
  ∧ snd (get_comments e db) = db
  ∧ snd (get_organizer_events c db) = db
  ∧ snd (get_event_rsvps c e db) = db.
Proof.
  repeat split.
  - unfold login. unfold_body. case_body; reflexivity.
  - unfold get_profile. unfold_body. case_body; reflexivity.
  - unfold get_event. unfold_body. case_body; reflexivity.
  - unfold get_rsvp_status. case_body; reflexivity.
  - unfold get_organizer_events. unfold_body. case_body; reflexivity.
  - unfold get_event_rsvps. unfold_body. case_body; reflexivity.
Qed.

End Views.

(** ** Accounts: what registration stores, and reading it back *)

Lemma string_app_assoc (a b c : string) : (a ++ b) ++ c = a ++ (b ++ c).
Proof.
  induction a as [|x a IH]; [reflexivity|].
  change (String x ((a ++ b) ++ c) = String x (a ++ (b ++ c))). now rewrite IH.
Qed.

Lemma py_replace_app (old : ascii) (new a b : string) :
  py_replace old new (a ++ b) = py_replace old new a ++ py_replace old new b.
Proof.
  induction a as [|c a IH]; [reflexivity|].
  change (py_replace old new (String c (a ++ b))
          = py_replace old new (String c a) ++ py_replace old new b).
  simpl. destruct (Ascii.eqb c old); rewrite IH.
  - now rewrite string_app_assoc.
  - reflexivity.
Qed.

Lemma py_replace_no_Z (new s : string) : no_Z s → py_replace "Z" new s = s.
Proof.
  unfold no_Z. induction s as [|c s IH]; simpl; [reflexivity|].
  intros Hall. inversion Hall as [|? ? Hc Hs]; subst.
  destruct (Ascii.eqb c "Z") eqn:E.
  - apply Ascii.eqb_eq in E. contradiction.
  - now rewrite IH.
Qed.

Section Register.
Context {P : Platform}.

(** What an answer 201 of POST /api/register says of the response and of
    the store it leaves. *)
Lemma register_ok_full ctx m db r db' :
  register ctx (JObj m) db = (r, db') → status_of r = 201 →
  ∃ name email h role,
    truthy (default JNull (m !! "email")) = true
    ∧ truthy (default JNull (m !! "password")) = true
    ∧ bind_text (default JNull (m !! "name")) = Some name
    ∧ bind_text (default JNull (m !! "email")) = Some email
    ∧ generate_password_hash ctx (default JNull (m !! "password")) = Some h
    ∧ defaulted bind_text "student" (m !! "role") role
    ∧ user_by_email email db = None
    ∧ r = Json (dict [("message", JStr "User registered successfully");
                      ("access_token", JStr (create_access_token ctx (user_seq db)));
                      ("user", user_json (User.mk (user_seq db) name email h role None
                                                  (utcnow ctx)))]) 201
    ∧ db' = with_user (User.mk (user_seq db) name email h role None (utcnow ctx)) db.
Proof.
  unfold register, run. intros Hrun Hst.
  destruct (not_data_or (JObj m) _) as [[|]|r0] eqn:Hmiss; simpl in Hrun;
    [simplify_eq; discriminate| |stops; simplify_eq; discriminate].
  apply not_data_or_false in Hmiss as (m' & [= <-] & Hall). simpl in Hall.
  apply andb_prop in Hall as [He Hall]. apply andb_prop in Hall as [Hp _].
  destruct (m !! "email") as [ev|] eqn:Hme; [|discriminate]. simpl in *.
  destruct (bind_text ev) as [email|] eqn:Hbe; simpl in Hrun;
    [|simplify_eq; discriminate].
  destruct (user_by_email email db) eqn:Hu; simpl in Hrun;
    [simplify_eq; discriminate|].
  destruct (m !! "password") as [pv|] eqn:Hmp; [|discriminate]. simpl in *.
  destruct (generate_password_hash ctx pv) as [h|] eqn:Hh; simpl in Hrun;
    [|simplify_eq; discriminate].
  destruct (m !! "name") as [nv|] eqn:Hmn; simpl in Hrun;
    [|simplify_eq; discriminate].
  destruct (column 100 nv) as [name|] eqn:Hbn; simpl in Hrun;
    [|simplify_eq; discriminate].
  destruct (stored 120 email) as [email'|] eqn:Hse; simpl in Hrun;
    [|simplify_eq; discriminate].
  destruct (stored 255 h) as [h'|] eqn:Hsh; simpl in Hrun;
    [|simplify_eq; discriminate].
  destruct (with_default (column 20) "student" _) as [role|r1] eqn:Hw; simpl in Hrun;
    [|apply with_default_stop in Hw; subst; simplify_eq; discriminate].
  apply stored_some in Hse as [-> _]. apply stored_some in Hsh as [-> _].
  apply column_some in Hbn as [Hbn _].
  unfold insert_user in Hrun. simpl in Hrun. rewrite Hu in Hrun.
  simpl in Hrun. simplify_eq.
  exists name, email, h, role. repeat split; trivial.
  apply (defaulted_column 20), (with_default_ret _ _ _ _ _ _ Hw). simpl.
  rewrite column_str; [reflexivity|]. apply varchar_fits. simpl. lia.
Qed.




(** A registration that names no role, or a null one, makes a student.
    When it is answered 201, in a store whose user ids were issued by the
    sequence, the one new user has the role student, and both organizer
    routes refuse the new account: POST /api/events, whatever the body,
    and GET /api/organizer/events answer 403 and change nothing. *)
Theorem register_null_role ctx m db r db' :
  register ctx (JObj m) db = (r, db') → status_of r = 201 →
  m !! "role" = None ∨ m !! "role" = Some JNull →
  user_ids_issued db →
  ∃ user,
    users db' = (users db ++ [user])%list
    ∧ User.id user = user_seq db
    ∧ User.role user = "student"
    ∧ get_user (user_seq db) db' = Some user
    ∧ (∀ ctx' data, create_event ctx' (user_seq db) data db'
                    = (error "Only organizers can create events" 403, db'))
    ∧ get_organizer_events (user_seq db) db'
      = (error "Only organizers can access this endpoint" 403, db').
Proof.
  intros Hrun Hst Hr Hids.
  destruct (register_ok_full _ _ _ _ _ Hrun Hst)
    as (name & email & h & role & _ & _ & _ & _ & _ & Hrole & _ & _ & ->).
  assert (role = "student") as -> by (destruct Hr as [Hr|Hr]; now rewrite Hr in Hrole).
  pose proof (get_user_new
                (User.mk (user_seq db) name email h "student" None (utcnow ctx))
                db Hids eq_refl) as Hnew.
  simpl in Hnew.
  eexists. split; [reflexivity|]. split; [reflexivity|]. split; [reflexivity|].
  split; [exact Hnew|]. split.
  - intros ctx' data. unfold create_event, run. now rewrite Hnew.
  - unfold get_organizer_events, run. now rewrite Hnew.
Qed.

(** How a date string reaches [fromisoformat]: a string without Z goes as
    it is, one Z at its end becomes +00:00, and so does every other Z,
    wherever it stands. *)
Theorem z_means_utc :
  (∀ a, no_Z a →
        date_of (JStr a) = fromisoformat a
        ∧ date_of (JStr (a ++ "Z")) = fromisoformat (a ++ "+00:00"))
  ∧ (∀ a b, date_of (JStr (a ++ "Z" ++ b))
            = fromisoformat (py_replace "Z" "+00:00" a ++ "+00:00"
                             ++ py_replace "Z" "+00:00" b)).
Proof.
  split.
  - intros a Ha. unfold date_of. split.
    + now rewrite py_replace_no_Z.
    + rewrite py_replace_app, (py_replace_no_Z _ a) by assumption. reflexivity.
  - intros a b. unfold date_of. now rewrite !py_replace_app.
Qed.

End Register.

(** * The theorems at work on the sample store

    Each lemma below instantiates one of the theorems above on
    [sample_db] under the reference platform, or runs a handler there. *)

Lemma sample_rsvp_unique : rsvp_unique sample_db.
Proof. unfold rsvp_unique. simpl. apply NoDup_singleton. Defined.

Lemma sample_user_ids_issued : user_ids_issued sample_db.
Proof. unfold user_ids_issued. simpl. repeat constructor; simpl; lia. Defined.

(** Bob, who has an RSVP for the talk, asks for another; then asks for one
    to the gala and cancels the first. *)
Lemma rsvp_at_most_once_witness :
  create_rsvp at_noon 2 (dict [("event_id", JInt 1)]) sample_db
  = (error "Already RSVP'd to this event" 400, sample_db)
  ∧ rsvp_unique
      (serve [(at_noon, CreateRsvp 2 (dict [("event_id", JInt 1)]));
              (at_noon, CreateRsvp 2 (dict [("event_id", JInt 2)]));
              (at_noon, CancelRsvp 2 1)] sample_db).
Proof.
  split.
  - apply (proj1 rsvp_at_most_once at_noon 2 1
             (list_to_map [("event_id", JInt 1)]) (JInt 1) talk bob_talk sample_db);
      vm_compute; reflexivity.
  - apply (proj1 (proj2 (proj2 rsvp_at_most_once))). exact sample_rsvp_unique.
Defined.

(** Ann's RSVP to her talk, whose price is 0, and Bob's to the gala,
    whose price is 25. *)
Lemma payment_status_at_creation_witness :
  rsvps (snd (create_rsvp at_noon 1 (dict [("event_id", JInt 1)]) sample_db))
  = [bob_talk; RSVP.mk 2 1 1 "free" 60]
  ∧ rsvps (snd (create_rsvp at_noon 2 (dict [("event_id", JInt 2)]) sample_db))
    = [bob_talk; RSVP.mk 2 2 2 "pending" 60].
Proof.
  split.
  - edestruct (payment_status_at_creation at_noon 1 (dict [("event_id", JInt 1)])
                sample_db _ _ (surjective_pairing _))
      as (m & v & e & ev & status & Hm & Hv & He & Hev & Hr & Hfree & _);
      [vm_compute; reflexivity|].
    injection Hm as <-.
    vm_compute in Hv. injection Hv as <-.
    vm_compute in He. injection He as <-.
    vm_compute in Hev. injection Hev as <-.
    rewrite Hr, (proj2 Hfree); [reflexivity|].
    exists 0%float. split; reflexivity.
  - edestruct (payment_status_at_creation at_noon 2 (dict [("event_id", JInt 2)])
                sample_db _ _ (surjective_pairing _))
      as (m & v & e & ev & status & Hm & Hv & He & Hev & Hr & _ & Hpending & _);
      [vm_compute; reflexivity|].
    injection Hm as <-.
    vm_compute in Hv. injection Hv as <-.
    vm_compute in He. injection He as <-.
    vm_compute in Hev. injection Hev as <-.
    rewrite Hr, (proj2 Hpending); [reflexivity|].
    right. exists 25%float. split; reflexivity.
Defined.

(** Bob tries to rename and to delete Ann's talk. *)
Lemma only_organizer_mutates_witness :
  update_event 2 1 (dict [("title", JStr "Mine")]) sample_db
  = (error "Only the organizer can update this event" 403, sample_db)
  ∧ delete_event 2 1 sample_db
    = (error "Only the organizer can delete this event" 403, sample_db).
Proof.
  apply (proj1 (only_organizer_mutates 2 1 (dict [("title", JStr "Mine")])
                  sample_db talk eq_refl)).
  simpl. lia.
Defined.



(** Ann sends an empty date, and a date that is none. *)
Lemma empty_date_update_succeeds :
  fromisoformat (py_replace "Z" "+00:00" "") = None
  ∧ get_event_row 1 sample_db = Some talk
  ∧ Event.organizer_id talk = 1
  ∧ update_event 1 1 (dict [("date", JStr "")]) sample_db
    = (message "Event updated successfully" 200, sample_db).
Proof. repeat split; vm_compute; reflexivity. Qed.

Lemma date_strings_are_checked_witness :
  update_event 1 1 (dict [("date", JStr "tomorrow")]) sample_db
  = (error "Invalid date format" 400, sample_db).
Proof.
  refine (proj2 (proj1 (date_strings_are_checked at_noon 1 1
                          (list_to_map [("date", JStr "tomorrow")]) "tomorrow"
                          sample_db _) _ _) talk _ _);
    first [discriminate | vm_compute; reflexivity].
Defined.


(** Bob's email with a wrong password, on the empty store and on the
    sample store. *)
Lemma login_failures_alike_witness :
  fst (login at_noon (dict [("email", JStr "bob@example.org");
                            ("password", JStr "guess")]) empty_db)
  = fst (login at_noon (dict [("email", JStr "bob@example.org");
                              ("password", JStr "guess")]) sample_db).
Proof.
  apply (login_failures_alike at_noon at_noon
           (list_to_map [("email", JStr "bob@example.org"); ("password", JStr "guess")])
           "bob@example.org" "guess" bob empty_db sample_db);
    first [discriminate | vm_compute; reflexivity].
Defined.



(** Ann deletes the gala, which has neither RSVP nor comment. *)
Lemma delete_event_without_dependents_witness :
  event_rsvps 2 sample_db = [] ∧ event_comments 2 sample_db = []
  ∧ events (snd (delete_event 1 2 sample_db))
    = filter (fun x => Event.id x ≠ 2) (events sample_db)
  ∧ users (snd (delete_event 1 2 sample_db)) = users sample_db
  ∧ rsvps (snd (delete_event 1 2 sample_db)) = rsvps sample_db
  ∧ comments (snd (delete_event 1 2 sample_db)) = comments sample_db.
Proof.
  apply (delete_event_without_dependents 1 2 sample_db
           (snd (delete_event 1 2 sample_db))
           (fst (delete_event 1 2 sample_db)));
    vm_compute; reflexivity.
Defined.

(** Zoe, registered with a null role, asks for the organizer's listing. *)
Lemma register_null_role_witness :
  ∃ user,
    users (snd (register at_noon (JObj zoe) sample_db)) = [ann; bob; user]
    ∧ User.role user = "student"
    ∧ get_organizer_events 3 (snd (register at_noon (JObj zoe) sample_db))
      = (error "Only organizers can access this endpoint" 403,
         snd (register at_noon (JObj zoe) sample_db)).
Proof.
  edestruct (register_null_role at_noon zoe sample_db _ _ (surjective_pairing _))
    as (user & Hu & _ & Hrole & _ & _ & Hlist);
    [vm_compute; reflexivity | right; reflexivity | exact sample_user_ids_issued |].
  exists user. split; [exact Hu|]. split; [exact Hrole | exact Hlist].
Defined.

(** Bob comments on the talk, and Ann tries to delete the comment. *)
Lemma delete_comment_only_author_witness :
  let db := snd (create_comment at_noon 2 1 (dict [("content", JStr "See you there")])
                   sample_db) in
  delete_comment 1 1 db
  = (error "Only the comment author can delete this comment" 403, db).
Proof.
  refine (delete_comment_only_author 1 1 _
            (Comment.mk 1 2 1 "See you there" 60) _ _);
    first [discriminate | vm_compute; reflexivity].
Defined.

(** The scenario of the specification: an organizer creates an event with
    price 0, a student RSVPs to it, and the student's RSVP status for the
    event is rsvpd with payment status free. *)
Example free_event_rsvp_scenario :
  let body := dict [("title", JStr "Picnic"); ("description", JStr "In the park");
                    ("date", JStr "2025-06-01T12:00:00Z"); ("location", JStr "Park");
                    ("price", JInt 0)] in
  let db1 := snd (create_event at_noon 1 body sample_db) in
  let db2 := snd (create_rsvp at_noon 2 (dict [("event_id", JInt 3)]) db1) in
  status_of (fst (create_event at_noon 1 body sample_db)) = 201
  ∧ status_of (fst (create_rsvp at_noon 2 (dict [("event_id", JInt 3)]) db1)) = 201
  ∧ get_rsvp_status 2 3 db2
    = (Json (dict [("rsvp_status", JStr "rsvpd"); ("payment_status", JStr "free")]) 200,
       db2).
Proof. repeat split; vm_compute; reflexivity. Qed.

(** ** More runs on the sample store *)

Lemma sample_store_ok : store_ok sample_db.
Proof.
  unfold store_ok, keys_ok. simpl.
  repeat split;
    first [ apply (bool_decide_unpack _); vm_compute; exact I
          | repeat constructor; simpl; lia ].
Defined.

Lemma sample_payment_known : payment_known sample_db.
Proof. unfold payment_known. simpl. repeat constructor. Defined.

Lemma sample_events_have_organizers : events_have_organizers sample_db.
Proof.
  unfold events_have_organizers. simpl.
  repeat constructor; exists ann; split; reflexivity.
Defined.

(** Three requests of Bob: an RSVP to the gala, a comment on the talk, and
    the cancelling of his RSVP to the talk. *)
Lemma primary_keys_stay_unique_witness : store_ok (serve bobs_evening sample_db).
Proof.
  apply (proj1 (proj2 primary_keys_stay_unique)). exact sample_store_ok.
Defined.

Lemma rsvp_rows_never_change_witness : payment_known (serve bobs_evening sample_db).
Proof.
  apply (proj1 (proj2 rsvp_rows_never_change)). exact sample_payment_known.
Defined.

Lemma events_keep_their_organizer_witness :
  events_have_organizers (serve bobs_evening sample_db).
Proof.
  apply (proj1 (proj2 events_keep_their_organizer)).
  exact sample_events_have_organizers.
Defined.

(** Bob cancels his RSVP to the talk. *)
Lemma cancel_rsvp_removes_own_witness :
  ∃ db', cancel_rsvp 2 1 sample_db = (message "RSVP cancelled successfully" 200, db')
         ∧ rsvp_of 2 1 db' = None
         ∧ (∀ u' e', (u', e') ≠ (2, 1) → rsvp_of u' e' db' = rsvp_of u' e' sample_db)
         ∧ users db' = users sample_db ∧ events db' = events sample_db
         ∧ comments db' = comments sample_db.
Proof.
  apply (proj2 (cancel_rsvp_removes_own 2 1 sample_db) bob_talk).
  - vm_compute. reflexivity.
  - exact sample_store_ok.
  - exact sample_rsvp_unique.
Defined.

(** Bob's RSVP to the gala, and what follows from it. *)
Lemma rsvp_create_then_cancel_witness :
  ∃ e, cancel_rsvp 2 e (snd (create_rsvp at_noon 2 (dict [("event_id", JInt 2)]) sample_db))
       = (message "RSVP cancelled successfully" 200,
          mkDB (users sample_db) (events sample_db) (rsvps sample_db)
               (comments sample_db) 3 3 (2 + 1) 1).
Proof.
  apply (rsvp_create_then_cancel at_noon 2 (dict [("event_id", JInt 2)]) sample_db
           (fst (create_rsvp at_noon 2 (dict [("event_id", JInt 2)]) sample_db))).
  - vm_compute. reflexivity.
  - vm_compute. reflexivity.
  - exact sample_store_ok.
Defined.

(** Ann asks for her status for the talk, before and after her RSVP. *)
Lemma rsvp_status_follows_create_witness :
  get_rsvp_status 1 1 sample_db
  = (Json (dict [("rsvp_status", JStr "not_rsvpd")]) 200, sample_db)
  ∧ fst (get_rsvp_status 1 1
           (snd (create_rsvp at_noon 1 (dict [("event_id", JInt 1)]) sample_db)))
    = Json (dict [("rsvp_status", JStr "rsvpd"); ("payment_status", JStr "free")]) 200.
Proof.
  edestruct (rsvp_status_follows_create at_noon 1 (dict [("event_id", JInt 1)])
               sample_db _ _ (surjective_pairing _))
    as (m & v & e & ev & Hm & Hv & He & Hev & Hbefore & Hafter);
    [vm_compute; reflexivity|].
  injection Hm as <-.
  vm_compute in Hv. injection Hv as <-.
  vm_compute in He. injection He as <-.
  vm_compute in Hev. injection Hev as <-.
  split; [exact Hbefore|]. now rewrite Hafter.
Defined.

(** Bob's RSVP to the gala: the gala has one RSVP more, the talk has the
    RSVPs it had. *)
Lemma rsvp_count_follows_create_witness :
  length (event_rsvps 2
            (snd (create_rsvp at_noon 2 (dict [("event_id", JInt 2)]) sample_db)))
  = S (length (event_rsvps 2 sample_db))
  ∧ event_rsvps 1
      (snd (create_rsvp at_noon 2 (dict [("event_id", JInt 2)]) sample_db))
    = event_rsvps 1 sample_db.
Proof.
  edestruct (rsvp_count_follows_create at_noon 2 (dict [("event_id", JInt 2)])
               sample_db _ _ (surjective_pairing _))
    as (m & v & e & ev & body & Hm & Hv & He & Hev & Hlen & _ & _ & Hother);
    [vm_compute; reflexivity|].
  injection Hm as <-.
  vm_compute in Hv. injection Hv as <-.
  vm_compute in He. injection He as <-.
  split; [exact Hlen|]. apply Hother. discriminate.
Defined.

(** Bob, a student, tries to create an event. *)
Lemma create_event_guards_witness :
  create_event at_noon 2 (dict [("title", JStr "Party")]) sample_db
  = (error "Only organizers can create events" 403, sample_db).
Proof.
  apply (proj1 (proj2 (create_event_guards at_noon 2 (dict [("title", JStr "Party")])
                         sample_db)) bob).
  - reflexivity.
  - discriminate.
Defined.


(** Ann asks for event 9, which is not stored. *)
Lemma missing_rows_answer_404_witness :
  update_event 1 9 (dict [("title", JStr "Nine")]) sample_db = (Abort 404, sample_db)
  ∧ delete_event 1 9 sample_db = (Abort 404, sample_db)
  ∧ get_event 9 sample_db = (Abort 404, sample_db)
  ∧ get_event_rsvps 1 9 sample_db = (Abort 404, sample_db).
Proof.
  apply (proj1 missing_rows_answer_404 1 9 (dict [("title", JStr "Nine")]) sample_db).
  vm_compute. reflexivity.
Defined.

(** A registration whose body is the list [1]. *)
Lemma bodies_that_are_no_object_witness :
  register at_noon (JArr [JInt 1]) sample_db = (Abort 500, sample_db).
Proof.
  apply (proj1 (proj2 (bodies_that_are_no_object at_noon 1 1 (JArr [JInt 1])
                         sample_db eq_refl)) eq_refl).
Defined.

(** Ann renames her talk, twice. *)
Lemma update_event_twice_witness :
  update_event 1 1 (dict [("title", JStr "Keynote")])
    (snd (update_event 1 1 (dict [("title", JStr "Keynote")]) sample_db))
  = (fst (update_event 1 1 (dict [("title", JStr "Keynote")]) sample_db),
     snd (update_event 1 1 (dict [("title", JStr "Keynote")]) sample_db)).
Proof.
  apply (update_event_twice 1 1 (dict [("title", JStr "Keynote")]) sample_db);
    vm_compute; reflexivity.
Defined.

(** Ann sends the empty object. *)
Lemma update_event_with_nothing_witness :
  update_event 1 1 (JObj ∅) sample_db
  = (message "Event updated successfully" 200, sample_db).
Proof.
  apply (update_event_with_nothing 1 1 ∅ sample_db talk);
    first [exact sample_store_ok | vm_compute; reflexivity].
Defined.

(** Bob comments on the talk. *)
Lemma create_comment_stores_comment_witness :
  ∃ content rows,
    bind_text (default JNull
                 ((list_to_map [("content", JStr "See you there")] : gmap string json)
                    !! "content")) = Some content
    ∧ snd (create_comment at_noon 2 1 (dict [("content", JStr "See you there")]) sample_db)
      = mkDB (users sample_db) (events sample_db) (rsvps sample_db)
          (comments sample_db ++ [Comment.mk (comment_seq sample_db) 2 1 content
                                    (utcnow at_noon)])
          (user_seq sample_db) (event_seq sample_db) (rsvp_seq sample_db)
          (comment_seq sample_db + 1)
    ∧ get_comments 1
        (snd (create_comment at_noon 2 1 (dict [("content", JStr "See you there")])
                sample_db))
      = (Json (JArr (map (comment_json
                            (snd (create_comment at_noon 2 1
                                    (dict [("content", JStr "See you there")])
                                    sample_db))) rows)) 200,
         snd (create_comment at_noon 2 1 (dict [("content", JStr "See you there")])
                sample_db))
    ∧ Comment.mk (comment_seq sample_db) 2 1 content (utcnow at_noon) ∈ rows.
Proof.
  apply (proj2 (create_comment_stores_comment at_noon 2 1
                  (list_to_map [("content", JStr "See you there")]) sample_db)
           (fst (create_comment at_noon 2 1 (dict [("content", JStr "See you there")])
                   sample_db)));
    vm_compute; reflexivity.
Defined.

Lemma comment_create_then_delete_witness :
  delete_comment 2 1
    (snd (create_comment at_noon 2 1 (dict [("content", JStr "See you there")]) sample_db))
  = (message "Comment deleted successfully" 200,
     mkDB (users sample_db) (events sample_db) (rsvps sample_db) (comments sample_db)
          3 3 2 (1 + 1)).
Proof.
  apply (comment_create_then_delete at_noon 2 1
           (dict [("content", JStr "See you there")]) sample_db
           (fst (create_comment at_noon 2 1 (dict [("content", JStr "See you there")])
                   sample_db)));
    first [exact sample_store_ok | vm_compute; reflexivity].
Defined.

Lemma delete_comment_removes_it_witness :
  let db := snd (create_comment at_noon 2 1 (dict [("content", JStr "See you there")])
                   sample_db) in
  ∃ db', delete_comment 2 1 db = (message "Comment deleted successfully" 200, db')
         ∧ get_comment_row 1 db' = None
         ∧ (∀ j, j ≠ 1 → get_comment_row j db' = get_comment_row j db)
         ∧ users db' = users db ∧ events db' = events db ∧ rsvps db' = rsvps db.
Proof.
  apply (delete_comment_removes_it 2 1 _ (Comment.mk 1 2 1 "See you there" 60));
    vm_compute; reflexivity.
Defined.

Lemma event_page_matches_listing_witness :
  ∃ rows,
    get_events sample_db = (Json (JArr (map (event_json sample_db) rows)) 200, sample_db)
    ∧ ∀ ev, ev ∈ events sample_db →
        ev ∈ rows
        ∧ get_event (Event.id ev) sample_db
          = (Json (event_json sample_db ev) 200, sample_db).
Proof. apply (event_page_matches_listing sample_db sample_store_ok). Defined.

(** Bob asks for the RSVPs of Ann's talk. *)
Lemma rsvp_roster_witness :
  get_event_rsvps 2 1 sample_db
  = (error "Only the organizer can view RSVPs for this event" 403, sample_db).
Proof.
  apply (proj1 (rsvp_roster 1 sample_db talk eq_refl) 2). discriminate.
Defined.

(** Ann lists her events. *)
Lemma organizer_listing_witness :
  ∃ rows,
    get_organizer_events 1 sample_db
    = (Json (JArr (map (own_event_json sample_db) rows)) 200, sample_db)
    ∧ Permutation rows (filter (fun e => Event.organizer_id e = 1) (events sample_db))
    ∧ StronglySorted date_le rows.
Proof.
  apply (proj2 (proj2 (organizer_listing 1 sample_db)) ann); reflexivity.
Defined.




(** A date with a Z at its end. *)
Lemma z_means_utc_witness :
  date_of (JStr "2025-06-01T12:00:00") = fromisoformat "2025-06-01T12:00:00"
  ∧ date_of (JStr ("2025-06-01T12:00:00" ++ "Z"))
    = fromisoformat ("2025-06-01T12:00:00" ++ "+00:00").
Proof.
  apply (proj1 z_means_utc "2025-06-01T12:00:00").
  unfold no_Z. simpl. repeat constructor; discriminate.
Defined.
